(** * data-formats: a shallow embedding of [src/src/Json.js]

    The library binds a JSON-shaped object to an instance of a model class
    through an ordered list of field mappers.  This file embeds the classes
    [SimpleMapper]/[Mapper]/[NumberMapper]/[JsonValue]/[JsonNode] and [Format]
    together with the small fragment of JavaScript they rely on, and proves
    the properties stated about them.

    Conventions of the embedding
    - A JavaScript function that may throw and may touch the outside world is
      a function into the monad [M]: it takes the current [world] and returns
      an [outcome] (normal completion or a thrown value) with the new world.
      Effects performed before a [Throw] are kept, as in JavaScript.
    - An object is a value: the class whose prototype it inherits from, if
      any, and the finite map of its own properties ([gmap string value]).
      Own properties are writable data properties and objects are
      extensible.  A name that is not an own property is looked up along the
      prototype chain of the class: what the chain holds under a name
      (nothing, a data property such as a method, or an accessor with its
      getter and setter) is given by the [Realm], as are the properties of
      primitives, arrays and functions.  Inherited data properties are
      writable, as class methods are.  The prototype of an object is that
      of a class, or none; [VNative] stands for a function and [VPrototype]
      for the prototype object of a class.
    - The only object the library mutates is the fresh [out] of a [read] or
      [write]; it is threaded through the loop.  User-supplied functions
      act on the world, not on the source or model object they are handed;
      a setter returns the receiver as it has left it.
    - A number is [NaN], a signed infinity, negative zero or a finite
      rational; positive zero is a finite number equal to 0.  Every finite
      double is such a rational, and the library only compares numbers and
      takes absolute values, which involves no rounding.
    - The parts of the host's [ToNumber] that parse strings or convert objects
      are a parameter ([Host]).
    - [Mapper.idResolver] takes lodash's [_.find] as a parameter ([Lodash]);
      [Mapper.date] (moment) is not embedded; [Format.validate] and
      [Format.transform] are empty stubs in the source and are left out. *)

From Stdlib Require Import QArith Qabs Lqa.
From stdpp Require Import gmap strings list fin_maps pretty.

#[local] Set Warnings "-register-all".


(** ** JavaScript values *)

Inductive number :=
| NaN
| Infinity (negative : bool)
| NegZero
| Fin (q : Q).

Inductive value :=
| VUndefined
| VNull
| VBool (b : bool)
| VNum (n : number)
| VStr (s : string)
| VArr (elems : list value)
| VObj (cls : option string) (props : gmap string value)
| VNative (name : string)
| VPrototype (cls : string).

(** The own properties of an object under construction. *)
Abbreviation props := (gmap string value).

(** [ToBoolean]: the values for which [!v] is [false]. *)
Definition truthy (v : value) : bool :=
  match v with
  | VUndefined | VNull => false
  | VBool b => b
  | VNum NaN | VNum NegZero => false
  | VNum (Infinity _) => true
  | VNum (Fin q) => negb (Qeq_bool q 0)
  | VStr s => negb (String.eqb s "")
  | VArr _ | VObj _ _ | VNative _ | VPrototype _ => true
  end.

(** [v === undefined] *)
Definition is_undefined (v : value) : bool :=
  match v with VUndefined => true | _ => false end.

(** [o[k]] on the own properties of an object: a missing key reads as
    [undefined]. *)
Definition prop (o : props) (k : string) : value :=
  default VUndefined (o !! k).

Definition TypeError (msg : string) : value :=
  VObj (Some "TypeError") {[ "message" := VStr msg ]}.

(** ** Numbers: [ToNumber], [Math.abs], [Math.max], [Math.min] *)

(** The host's conversion of strings, arrays, objects and functions to
    numbers. *)
Class Host := ToNumber_host : value -> number.

(** [+v] *)
Definition ToNumber `{Host} (v : value) : number :=
  match v with
  | VUndefined => NaN
  | VNull => Fin 0
  | VBool true => Fin 1
  | VBool false => Fin 0
  | VNum n => n
  | VStr _ | VArr _ | VObj _ _ | VNative _ | VPrototype _ => ToNumber_host v
  end.

(** The order used by [Math.max] and [Math.min] on numbers other than [NaN]:
    the usual order, with [-0] below [+0]. *)
Definition num_leb (a b : number) : bool :=
  match a, b with
  | NaN, _ | _, NaN => false
  | Infinity true, _ => true
  | _, Infinity false => true
  | Infinity false, _ => false
  | _, Infinity true => false
  | NegZero, NegZero => true
  | NegZero, Fin q => Qle_bool 0 q
  | Fin p, NegZero => negb (Qle_bool 0 p)
  | Fin p, Fin q => Qle_bool p q
  end.

Definition is_NaN (n : number) : bool :=
  match n with NaN => true | _ => false end.

Definition Math_max (a b : number) : number :=
  if is_NaN a || is_NaN b then NaN
  else if num_leb a b then b else a.

Definition Math_min (a b : number) : number :=
  if is_NaN a || is_NaN b then NaN
  else if num_leb a b then a else b.

Definition Math_abs (a : number) : number :=
  match a with
  | NaN => NaN
  | Infinity _ => Infinity false
  | NegZero => Fin 0
  | Fin q => Fin (Qabs q)
  end.

(** ** Effects: the world, exceptions and the console *)

Inductive log_entry :=
| ConsoleLog (msg : string) (e : value)
| ConsoleError (msg : string).

(** [console] is what has been printed so far; [ambient] stands for every
    other piece of state a user-supplied function can read or change. *)
Record world := World { console : list log_entry; ambient : value }.

Inductive outcome (A : Type) :=
| Return (a : A)
| Throw (e : value).
Arguments Return {A} a.
Arguments Throw {A} e.

Definition M (A : Type) : Type := world -> outcome A * world.

Definition ret {A} (a : A) : M A := fun w => (Return a, w).

Definition throw {A} (e : value) : M A := fun w => (Throw e, w).

Definition bind {A B} (m : M A) (k : A -> M B) : M B :=
  fun w =>
    match m w with
    | (Return a, w') => k a w'
    | (Throw e, w') => (Throw e, w')
    end.

(** [try { m } catch (e) { h e }] *)
Definition try_catch {A} (m : M A) (h : value -> M A) : M A :=
  fun w =>
    match m w with
    | (Return a, w') => (Return a, w')
    | (Throw e, w') => h e w'
    end.

Declare Scope js_scope.
Delimit Scope js_scope with js.
Notation "x <- c ;; k" := (bind c (fun x => k))
  (at level 100, c at next level, right associativity) : js_scope.
Notation "c ;;; k" := (bind c (fun _ => k))
  (at level 100, right associativity) : js_scope.
#[local] Open Scope js_scope.

Definition print (entry : log_entry) (w : world) : world :=
  {| console := console w ++ [entry]; ambient := ambient w |}.

Definition console_log (msg : string) (e : value) : M unit :=
  fun w => (Return tt, print (ConsoleLog msg e) w).

Definition console_error (msg : string) : M unit :=
  fun w => (Return tt, print (ConsoleError msg) w).

(** A JavaScript function of one argument. *)
Abbreviation jsfun := (value -> M value).

(** A function without effects that always returns. *)
Definition lift (g : value -> value) : jsfun := fun v => ret (g v).

(** ** Property access *)

(** An object under construction: the class it inherits from and its own
    properties. *)
Definition object : Type := option string * props.

(** What a prototype chain holds under a name: nothing, a data property, or
    an accessor, either half of which may be missing.  A getter runs on the
    receiver; a setter runs on the receiver and the assigned value and
    returns the receiver as it has left it. *)
Inductive slot :=
| Absent
| Inherited (v : value)
| Accessor (getter : option (object -> M value)) (setter : option (object -> value -> M object)).

(** The prototype chains of the program's classes, [Object.prototype]
    included, and the properties of the values that are not objects of a
    class (strings, arrays, numbers, booleans, functions).  The library is
    embedded, and its properties are proved, for an arbitrary realm. *)
Class Realm := {
  slot_of : string -> string -> slot;
  builtin_get : value -> string -> value
}.

(** An object made by [Object.create(null)] inherits nothing. *)
Definition chain `{Realm} (cls : option string) (k : string) : slot :=
  match cls with
  | Some c => slot_of c k
  | None => Absent
  end.

(** [o[k]] for an arbitrary value [o]: reading a property of [null] or
    [undefined] throws; on an object an own property is found first, then
    the prototype chain, where a getter is called. *)
Definition get `{Realm} (k : string) : jsfun := fun o =>
  match o with
  | VUndefined | VNull => throw (TypeError "Cannot read properties of null or undefined")
  | VObj cls ps =>
      match ps !! k with
      | Some v => ret v
      | None =>
          match chain cls k with
          | Absent => ret VUndefined
          | Inherited v => ret v
          | Accessor (Some getter) _ => getter (cls, ps)
          | Accessor None _ => ret VUndefined
          end
      end
  | _ => ret (builtin_get o k)
  end.

(** [o[k] = v] in strict mode (the library is an ES module): an own
    property is overwritten; otherwise a setter on the prototype chain is
    called, an accessor without setter makes the assignment throw, and in
    every other case a new own property is created. *)
Definition assign `{Realm} (k : string) (v : value) (o : object) : M object :=
  match o.2 !! k with
  | Some _ => ret (o.1, <[k := v]> o.2)
  | None =>
      match chain o.1 k with
      | Absent | Inherited _ => ret (o.1, <[k := v]> o.2)
      | Accessor _ (Some setter) => setter o v
      | Accessor _ None => throw (TypeError "Cannot set property which has only a getter")
      end
  end.

(** [l.forEach(body)] where [body] updates an accumulated state. *)
Fixpoint forEach {A S} (body : A -> S -> M S) (l : list A) (s : S) : M S :=
  match l with
  | [] => ret s
  | x :: l' => s' <- body x s ;; forEach body l' s'
  end.

(** [l.map(f)] for an effectful [f]. *)
Fixpoint array_map (f : jsfun) (l : list value) : M (list value) :=
  match l with
  | [] => ret []
  | x :: l' => y <- f x ;; ys <- array_map f l' ;; ret (y :: ys)
  end.

(** [l.reduce(f)] without an initial value: throws on an empty array. *)
Definition array_reduce {A} (f : A -> A -> A) (l : list A) : outcome A :=
  match l with
  | [] => Throw (TypeError "Reduce of empty array with no initial value")
  | x :: l' => Return (fold_left f l' x)
  end.

(** [a === b] when one side is a primitive constant.  Objects and arrays are
    compared by identity in JavaScript, which never equals a primitive. *)
Definition strict_equals (a b : value) : bool :=
  match a, b with
  | VUndefined, VUndefined | VNull, VNull => true
  | VBool x, VBool y => Bool.eqb x y
  | VStr x, VStr y => String.eqb x y
  | VNum (Fin p), VNum (Fin q) => Qeq_bool p q
  | VNum NegZero, VNum NegZero => true
  | VNum NegZero, VNum (Fin q) | VNum (Fin q), VNum NegZero => Qeq_bool q 0
  | VNum (Infinity s), VNum (Infinity t) => Bool.eqb s t
  | _, _ => false
  end.

(** ** Mappers *)

(** The class an object was created from decides which [transform] a call
    of [this.transform] reaches. *)
Inductive MapperClass := Mapper_ | NumberMapper_ | JsonValue_ | JsonNode_.

(** [SimpleMapper]: the two names and the two functions.  [write] may be
    missing ([rawTransform] called with a reader only). *)
Record Mapper := new_Mapper {
  mclass : MapperClass;
  name : string;
  modelName : string;
  read : jsfun;
  write : option jsfun
}.

(** Calling a property that may hold no function. *)
Definition call (f : option jsfun) : jsfun := fun v =>
  match f with
  | Some g => g v
  | None => throw (TypeError "write is not a function")
  end.

(** [AbstractFormat]: anything with a [read] and a [write]. *)
Record AbstractFormat := { af_read : jsfun; af_write : jsfun }.

(** [Mapper.transform(read, write)]:
    [new Mapper(name, modelName, o => read(this.read(o)), m => write(this.write(m)))] *)
Definition Mapper_transform (this : Mapper) (r w : jsfun) : Mapper :=
  new_Mapper Mapper_ (name this) (modelName this)
    (fun o => v <- read this o ;; r v)
    (Some (fun m => v <- call (write this) m ;; w v)).

(** [NumberMapper.transform(read, write)]:
    [new NumberMapper(name, modelName, other => read(this.read(other)), this.write)] *)
Definition NumberMapper_transform (this : Mapper) (r w : jsfun) : Mapper :=
  new_Mapper NumberMapper_ (name this) (modelName this)
    (fun other => v <- read this other ;; r v)
    (write this).

(** [this.transform(r, w)]: [NumberMapper] overrides the method, the other
    classes inherit it from [Mapper]. *)
Definition transform (this : Mapper) (r w : jsfun) : Mapper :=
  match mclass this with
  | NumberMapper_ => NumberMapper_transform this r w
  | Mapper_ | JsonValue_ | JsonNode_ => Mapper_transform this r w
  end.

(** [boolean()]: [b !== undefined && (b === true || b === 'true' || b === '1' || b === 1)]
    on read, the identity on write. *)
Definition Mapper_boolean (this : Mapper) : Mapper :=
  transform this
    (lift (fun b => VBool (negb (is_undefined b) &&
                           (strict_equals b (VBool true) || strict_equals b (VStr "true") ||
                            strict_equals b (VStr "1") || strict_equals b (VNum (Fin 1))))))
    (lift (fun b => b)).

(** [number()]: [new NumberMapper(name, modelName, v => +this.read(v), this.write)] *)
Definition Mapper_number `{Host} (this : Mapper) : Mapper :=
  new_Mapper NumberMapper_ (name this) (modelName this)
    (fun v => x <- read this v ;; ret (VNum (ToNumber x)))
    (write this).

(** [arrayOf(f)]: [Array.isArray(a) ? a.map(e => f.read(e)) : void 0] on read,
    the same with [f.write] on write. *)
Definition Mapper_arrayOf (this : Mapper) (f : AbstractFormat) : Mapper :=
  transform this
    (fun a => match a with
              | VArr l => ys <- array_map (af_read f) l ;; ret (VArr ys)
              | _ => ret VUndefined
              end)
    (fun a => match a with
              | VArr l => ys <- array_map (af_write f) l ;; ret (VArr ys)
              | _ => ret VUndefined
              end).

(** [readonly()]: [new Mapper(name, modelName, this.read, _ => void 0)] *)
Definition Mapper_readonly (this : Mapper) : Mapper :=
  new_Mapper Mapper_ (name this) (modelName this) (read this) (Some (lift (fun _ => VUndefined))).

(** [writeonly()]: [new Mapper(name, modelName, _ => void 0, this.write)] *)
Definition Mapper_writeonly (this : Mapper) : Mapper :=
  new_Mapper Mapper_ (name this) (modelName this) (lift (fun _ => VUndefined)) (write this).

(** [defaultsTo(value)]: [v || value] in both directions. *)
Definition Mapper_defaultsTo (this : Mapper) (value : value) : Mapper :=
  transform this
    (lift (fun v => if truthy v then v else value))
    (lift (fun v => if truthy v then v else value)).

(** The host's lodash: [find_by array idField v] is
    [_.find(array, { [idField]: v })]. *)
Class Lodash := find_by : list value -> string -> value -> value.

(** [idResolver(array, idField = 'id')]:
    [this.transform(v => _.find(array, { [idField]: v }), v => !!v ? v[idField] : null)] *)
Definition Mapper_idResolver `{Lodash} `{Realm} (this : Mapper) (array : list value)
    (idField : option string) : Mapper :=
  transform this
    (lift (find_by array (default "id" idField)))
    (fun v => if truthy v then get (default "id" idField) v else ret VNull).

(** *** NumberMapper *)

(** [abs()]: [v ? Math.abs(v) : v] on read. *)
Definition NumberMapper_abs `{Host} (this : Mapper) : Mapper :=
  transform this
    (lift (fun v => if truthy v then VNum (Math_abs (ToNumber v)) else v))
    (lift (fun v => v)).

(** [min(m)]: [v ? Math.max(v, m) : m] on read. *)
Definition NumberMapper_min `{Host} (this : Mapper) (m : number) : Mapper :=
  transform this
    (lift (fun v => if truthy v then VNum (Math_max (ToNumber v) m) else VNum m))
    (lift (fun v => v)).

(** [max(m)]: [v ? Math.min(v, m) : m] on read. *)
Definition NumberMapper_max `{Host} (this : Mapper) (m : number) : Mapper :=
  transform this
    (lift (fun v => if truthy v then VNum (Math_min (ToNumber v) m) else VNum m))
    (lift (fun v => v)).

(** *** JsonValue and JsonNode *)

(** [to(modelName)]:
    [new JsonValue(this.name, modelName, this.read, model => model[modelName])] *)
Definition JsonValue_to `{Realm} (this : Mapper) (modelName' : string) : Mapper :=
  new_Mapper JsonValue_ (name this) modelName' (read this) (Some (get modelName')).

(** [rawTransform(read, write)]: [new Mapper(name, modelName, read, write)];
    the test suite leaves [write] out. *)
Definition JsonValue_rawTransform (this : Mapper) (r : jsfun) (w : option jsfun) : Mapper :=
  new_Mapper Mapper_ (name this) (modelName this) r w.

(** [json`name`]: [new JsonValue(name, name, j => j[name], m => m[name])] *)
Definition json `{Realm} (name : string) : Mapper :=
  new_Mapper JsonValue_ name name (get name) (Some (get name)).

(** [JsonNode.to(modelName)], as [JsonValue.to] but a [JsonNode]. *)
Definition JsonNode_to `{Realm} (this : Mapper) (modelName' : string) : Mapper :=
  new_Mapper JsonNode_ (name this) modelName' (read this) (Some (get modelName')).

(** [is(f)]: [this.transform(v => f.read(v), v => f.write(v))]; the invariant on
    [f] holds of every [AbstractFormat] here. *)
Definition JsonNode_is (this : Mapper) (f : AbstractFormat) : Mapper :=
  transform this (af_read f) (af_write f).

(** [node`name`] *)
Definition node `{Realm} (name : string) : Mapper :=
  new_Mapper JsonNode_ name name (get name) (Some (get name)).

(** [number`name`] and [boolean`name`] *)
Definition number_ `{Host} `{Realm} (name : string) : Mapper := Mapper_number (json name).

Definition boolean `{Realm} (name : string) : Mapper := Mapper_boolean (json name).

(** ** Formats *)

(** A model class: its name and what [new cl()] does.  The constructor
    yields the own properties of the fresh instance. *)
Record Class := { class_name : string; class_new : M props }.

(** [new cl()]: an object that inherits from the prototype of [cl]; [cl]
    may be missing, as nothing checks the constructor's argument. *)
Definition new_instance (cl : option Class) : M object :=
  match cl with
  | Some c => ps <- class_new c ;; ret (Some (class_name c), ps)
  | None => throw (TypeError "this._cl is not a constructor")
  end.

(** [Format] itself and the two anonymous subclasses made by [writeonly] and
    [readonly], which capture [silent]. *)
Inductive FormatClass :=
| Format_
| WriteOnlyFormat (silent : bool)
| ReadOnlyFormat (silent : bool).

(** The compiled reader [(source, out) => void]: it updates [out] in place,
    here it returns the updated object.  Its first argument is the value of
    [this.dropUndefined] at the time of the call. *)
Definition reader : Type := bool -> value -> object -> M object.

Record Format := new_Format {
  fclass : FormatClass;
  _cl : option Class;
  _mappers : list Mapper;
  dropUndefined : bool;
  _read : reader
}.

(** The closure built for one mapper by the constructor. *)
Definition mapper_reader `{Realm} (f : Mapper) : reader := fun drop source out =>
  value <- read f source ;;
  if drop && is_undefined value then ret out
  else assign (modelName f) value out.

(** [(a, b) => (source, out) => { a(source, out); b(source, out); }] *)
Definition seq_reader (a b : reader) : reader := fun drop source out =>
  out' <- a drop source out ;; b drop source out'.

(** The constructor, shared by [Format] and its anonymous subclasses. *)
Definition Format_constructor `{Realm} (k : FormatClass) (cl : option Class) (mappers : list Mapper)
  : outcome Format :=
  match array_reduce seq_reader (map mapper_reader mappers) with
  | Return r => Return (new_Format k cl mappers true r)
  | Throw e => Throw e
  end.

(** [this.dropUndefined = b] *)
Definition set_dropUndefined (this : Format) (b : bool) : Format :=
  new_Format (fclass this) (_cl this) (_mappers this) b (_read this).

(** [Format.read(source)] *)
Definition Format_read (this : Format) : jsfun := fun source =>
  if negb (truthy source) then ret VNull
  else
    try_catch
      (inst <- new_instance (_cl this) ;;
       out <- _read this (dropUndefined this) source inst ;;
       ret (VObj out.1 out.2))
      (fun e => console_log "A format read completely exploded." e ;;; ret VUndefined).

(** [!!f.write] *)
Definition has_write (f : Mapper) : bool :=
  match write f with Some _ => true | None => false end.

(** The body of the [forEach] in [Format.write]. *)
Definition mapper_writer (drop : bool) (model : value) (f : Mapper) (out : props) : M props :=
  value <- call (write f) model ;;
  if drop && is_undefined value then ret out
  else value' <- call (write f) model ;; ret (<[name f := value']> out).

(** [Format.write(model)] *)
Definition Format_write (this : Format) : jsfun := fun model =>
  if negb (truthy model) then ret VNull
  else
    try_catch
      (out <- forEach (mapper_writer (dropUndefined this) model)
                      (List.filter has_write (_mappers this)) ∅ ;;
       ret (VObj None out))
      (fun e => console_log "A format write completely exploded." e ;;; ret VUndefined).

(** The [read] of the class made by [writeonly]. *)
Definition WriteOnly_read (silent : bool) : jsfun := fun _ =>
  console_error "This is a write only writer." ;;;
  if negb silent then throw (VStr "This is a write only writer") else ret VUndefined.

(** The [write] of the class made by [readonly]. *)
Definition ReadOnly_write (silent : bool) : jsfun := fun _ =>
  console_error "This is a read only writer." ;;;
  if negb silent then throw (VStr "This is a read only writer") else ret VUndefined.

(** [f.read(source)] and [f.write(model)]: the method the object's class
    provides. *)
Definition read_of (f : Format) : jsfun :=
  match fclass f with
  | WriteOnlyFormat silent => WriteOnly_read silent
  | Format_ | ReadOnlyFormat _ => Format_read f
  end.

Definition write_of (f : Format) : jsfun :=
  match fclass f with
  | ReadOnlyFormat silent => ReadOnly_write silent
  | Format_ | WriteOnlyFormat _ => Format_write f
  end.

(** A format used where an [AbstractFormat] is expected. *)
Definition as_abstract (f : Format) : AbstractFormat :=
  {| af_read := read_of f; af_write := write_of f |}.

(** [writeonly(silent = true)]: a new instance of the subclass, built from
    [this._cl] and [this._mappers]; [silent] is [true] when left out. *)
Definition Format_writeonly `{Realm} (this : Format) (silent : option bool) : outcome Format :=
  Format_constructor (WriteOnlyFormat (default true silent)) (_cl this) (_mappers this).

(** [readonly(silent = true)] *)
Definition Format_readonly `{Realm} (this : Format) (silent : option bool) : outcome Format :=
  Format_constructor (ReadOnlyFormat (default true silent)) (_cl this) (_mappers this).

(** [extend(cl, ...mappers)]: [invariant(!!cl, ...)], then
    [new Format(cl, ...[...mappers, ...this._mappers])] *)
Definition Format_extend `{Realm} (this : Format) (cl : option Class) (mappers : list Mapper)
  : outcome Format :=
  match cl with
  | None => Throw (VObj (Some "Error")
                     {[ "message" := VStr "Format.extend should be called with a valid class" ]})
  | Some _ => Format_constructor Format_ cl (mappers ++ _mappers this)
  end.

(** The formats a program can hold: results of the constructor, possibly
    with the public flag [dropUndefined] reassigned. *)
Inductive Configured `{Realm} : Format -> Prop :=
| Configured_new k cl mappers f :
    Format_constructor k cl mappers = Return f -> Configured f
| Configured_flag f b :
    Configured f -> Configured (set_dropUndefined f b).

(** ** Notions used in the statements *)

(** The format the constructor returns for a list with a first mapper. *)
Definition Format_of `{Realm} (k : FormatClass) (cl : option Class) (m : Mapper) (ms : list Mapper)
  : Format :=
  new_Format k cl (m :: ms) true (fold_left seq_reader (map mapper_reader ms) (mapper_reader m)).

(** The write loop of [Format.write] with the redundant second call of a
    mapper's write function removed. *)
Definition mapper_writer_dedup (drop : bool) (model : value) (f : Mapper) (out : props)
  : M props :=
  value <- call (write f) model ;;
  if drop && is_undefined value then ret out
  else ret (<[name f := value]> out).

Definition Format_write_dedup (this : Format) : jsfun := fun model =>
  if negb (truthy model) then ret VNull
  else
    try_catch
      (out <- forEach (mapper_writer_dedup (dropUndefined this) model)
                      (List.filter has_write (_mappers this)) ∅ ;;
       ret (VObj None out))
      (fun e => console_log "A format write completely exploded." e ;;; ret VUndefined).

(** A function is pure when it neither reads nor changes the world: its
    outcome depends on its argument only. *)
Definition pure_fn (g : jsfun) : Prop :=
  exists r : value -> outcome value, forall v w, g v w = (r v, w).

(** A realm whose getters neither read nor change the world. *)
Definition pure_getters `{Realm} : Prop :=
  forall c k getter setter,
    slot_of c k = Accessor (Some getter) setter ->
    exists r : object -> outcome value, forall o w, getter o w = (r o, w).

(** A realm whose setters neither read nor change the world. *)
Definition pure_setters `{Realm} : Prop :=
  forall c k getter setter,
    slot_of c k = Accessor getter (Some setter) ->
    exists r : object -> value -> outcome object, forall o v w, setter o v w = (r o v, w).

(** What [Format.write] makes of the outcome of its loop: the object built,
    or [undefined] and a log line when the loop has thrown. *)
Definition written (loop : M props) : M value :=
  try_catch (out <- loop ;; ret (VObj None out))
            (fun e => console_log "A format write completely exploded." e ;;; ret VUndefined).

(** The mapper applications of one [read], in list order. *)
Definition run_readers `{Realm} (drop : bool) (source : value)
  : list Mapper -> object -> M object :=
  forEach (fun m out => mapper_reader m drop source out).

(** A name is a plain field of the instances of a class when the prototype
    chain of the class has no accessor of that name: assigning it stores an
    own property. *)
Definition data_slot `{Realm} (cls : option string) (k : string) : bool :=
  match chain cls k with
  | Accessor _ _ => false
  | Absent | Inherited _ => true
  end.

(** A format whose targets are all plain fields of the instances of its
    class. *)
Definition plain_targets `{Realm} (f : Format) : Prop :=
  forall c, _cl f = Some c ->
    Forall (fun m => data_slot (Some (class_name c)) (modelName m) = true) (_mappers f).

(** The mapper applications of one [write], in list order. *)
Definition run_writers (drop : bool) (model : value) : list Mapper -> props -> M props :=
  forEach (mapper_writer drop model).

(** The mappers reached from a [NumberMapper] by its refinements. *)
Inductive refines `{Host} (nm : Mapper) : Mapper -> Prop :=
| refines_refl : refines nm nm
| refines_transform nm' r w : refines nm nm' -> refines nm (transform nm' r w)
| refines_abs nm' : refines nm nm' -> refines nm (NumberMapper_abs nm')
| refines_min nm' b : refines nm nm' -> refines nm (NumberMapper_min nm' b)
| refines_max nm' b : refines nm nm' -> refines nm (NumberMapper_max nm' b).

(** A world in which nothing has been printed yet. *)
Definition world0 : world := World [] VNull.

(** ** The realm of the test suite *)

(** The names every object finds on [Object.prototype]. *)
Definition Object_prototype : list string :=
  [ "hasOwnProperty"; "isPrototypeOf"; "propertyIsEnumerable"; "toLocaleString";
    "toString"; "valueOf"; "__defineGetter__"; "__defineSetter__";
    "__lookupGetter__"; "__lookupSetter__" ].

(** [Object.prototype.__proto__]: the getter returns the prototype of the
    receiver; the setter replaces it when given [null] or an object and
    ignores every other value.  Of an object that is not the prototype of a
    class only what it inherits is recorded. *)
Definition prototype_value (cls : option string) : value :=
  match cls with
  | Some c => VPrototype c
  | None => VNull
  end.

Definition get_prototype (o : object) : M value := ret (prototype_value o.1).

Definition set_prototype (o : object) (v : value) : M object :=
  ret (match v with
       | VNull => (None, o.2)
       | VPrototype c => (Some c, o.2)
       | VObj cls _ => (cls, o.2)
       | VArr _ => (Some "Array", o.2)
       | VNative _ => (Some "Function", o.2)
       | VUndefined | VBool _ | VNum _ | VStr _ => o
       end).

(** The accessors of the class [Test] of [test/JsonTest.js]:
    [set readonly(value) { this._readonly = '...'; }] and
    [get writeonly() { return '...'; }]. *)
Definition Test_set_readonly (this : object) (_ : value) : M object :=
  ret (this.1, <["_readonly" := VStr "this will never be set from the JSON to here"]> this.2).

Definition Test_get_writeonly (_ : object) : M value :=
  ret (VStr "this will never be set to the JSON from here").

Definition is_Test (c : string) : bool := String.eqb c "Test" || String.eqb c "Test2".

(** The prototype chain of a class [c]: [Test] and its subclass [Test2]
    have the two accessors, [Test2] has the method [foo], and every chain
    ends in [Object.prototype]. *)
Definition test_slot (c k : string) : slot :=
  if String.eqb k "__proto__" then Accessor (Some get_prototype) (Some set_prototype)
  else if is_Test c && String.eqb k "readonly" then Accessor None (Some Test_set_readonly)
  else if is_Test c && String.eqb k "writeonly" then Accessor (Some Test_get_writeonly) None
  else if String.eqb c "Test2" && String.eqb k "foo" then Inherited (VNative "Test2.prototype.foo")
  else if String.eqb k "constructor" then Inherited (VNative c)
  else if existsb (String.eqb k) Object_prototype then Inherited (VNative ("Object.prototype." +:+ k))
  else Absent.

(** The index a property name denotes in a string or an array of length
    [n]. *)
Definition index_of (k : string) (n : nat) : option nat :=
  List.find (fun i => String.eqb (pretty i) k) (seq 0 n).

(** The class a class extends. *)
Definition parent (c : string) : option string :=
  if String.eqb c "Object" then None
  else if String.eqb c "Test2" then Some "Test"
  else Some "Object".

(** What a receiver that has no own property [k] finds on the prototype of
    [c].  Which methods [String.prototype], [Array.prototype] and the like
    carry beyond those of [Object.prototype] depends on the engine; they are
    not listed, and no example looks one up. *)
Definition inherited (receiver : object) (c k : string) : value :=
  match test_slot c k with
  | Inherited v => v
  | Accessor (Some getter) _ =>
      match getter receiver world0 with
      | (Return v, _) => v
      | (Throw _, _) => VUndefined
      end
  | Accessor None _ | Absent => VUndefined
  end.

Definition test_builtin (v : value) (k : string) : value :=
  match v with
  | VStr s =>
      if String.eqb k "length" then VNum (Fin (inject_Z (Z.of_nat (String.length s))))
      else match index_of k (String.length s) with
           | Some i => VStr (String.substring i 1 s)
           | None => inherited (Some "String", ∅) "String" k
           end
  | VArr l =>
      if String.eqb k "length" then VNum (Fin (inject_Z (Z.of_nat (length l))))
      else match index_of k (length l) with
           | Some i => default VUndefined (l !! i)
           | None => inherited (Some "Array", ∅) "Array" k
           end
  | VNum _ => inherited (Some "Number", ∅) "Number" k
  | VBool _ => inherited (Some "Boolean", ∅) "Boolean" k
  | VNative _ => inherited (Some "Function", ∅) "Function" k
  | VPrototype c => inherited (parent c, ∅) c k
  | VUndefined | VNull | VObj _ _ => VUndefined
  end.

#[export] Instance test_realm : Realm := {| slot_of := test_slot; builtin_get := test_builtin |}.

(** ** Formats, mappers and sources used in the examples *)

(** A model class without fields of its own. *)
Definition Plain : Class := {| class_name := "Plain"; class_new := ret ∅ |}.

(** A mapper that throws in both directions, and a format in which it comes
    second. *)
Definition exploding : Mapper :=
  JsonValue_rawTransform (json "b") (fun _ => throw (VStr "boom")) (Some (fun _ => throw (VStr "bang"))).

Definition exploding_format : Format := Format_of Format_ (Some Plain) (json "a") [exploding].

Definition ab_object : value := VObj None (<["a" := VStr "x"]> (<["b" := VStr "y"]> ∅)).

(** [new Format(Plain, json`a`)], its [writeonly()] and its
    [readonly(false)]. *)
Definition plain_format : Format := Format_of Format_ (Some Plain) (json "a") [].

Definition writeonly_format : Format := Format_of (WriteOnlyFormat true) (Some Plain) (json "a") [].

Definition readonly_loud_format : Format :=
  Format_of (ReadOnlyFormat false) (Some Plain) (json "a") [].

(** A host that parses nothing, for examples that convert numbers only. *)
Definition no_parsing : Host := fun _ => NaN.

(** The sources [{b: 14}], [{c: -16}] and [{b: 0}]. *)
Definition b14 : value := VObj None {[ "b" := VNum (Fin 14) ]}.
Definition c_minus16 : value := VObj None {[ "c" := VNum (Fin (-16)) ]}.
Definition b0 : value := VObj None {[ "b" := VNum (Fin 0) ]}.

(** A write function that counts its calls in the ambient state shows the
    second call: the value written is the one of the second call. *)
Definition tick : jsfun := fun _ w =>
  match ambient w with
  | VNum (Fin q) => (Return (VNum (Fin (q + 1))), World (console w) (VNum (Fin (q + 1))))
  | _ => (Return VNull, w)
  end.

Definition ticking_format : Format :=
  Format_of Format_ (Some Plain) (JsonValue_rawTransform (json "n") (get "n") (Some tick)) [].

(** Two mappers for the model field [x]: [json`x`] and [json`y`.to('x')]. *)
Definition clash_format : Format :=
  Format_of Format_ (Some Plain) (json "x") [JsonValue_to (json "y") "x"].

Definition xy_object : value :=
  VObj None (<["x" := VNum (Fin 1)]> (<["y" := VNum (Fin 2)]> ∅)).

(** The pair of mappers the test suite uses for [stringBoolean]: the first
    reads only, the second writes only. *)
Definition stringBoolean_reader : Mapper := Mapper_readonly (Mapper_boolean (json "stringBoolean")).

Definition stringBoolean_writer : Mapper :=
  Mapper_writeonly
    (transform (json "stringBoolean")
       (lift (fun _ => VNum (Fin 0)))
       (lift (fun b => VStr (if truthy b then "true" else "false")))).

Definition stringBoolean_format : Format :=
  Format_of Format_ (Some Plain) stringBoolean_reader [stringBoolean_writer].

Definition stringBoolean_source : value := VObj None {[ "stringBoolean" := VStr "true" ]}.

(** A subclass and the extension of the test suite. *)
Definition Sub : Class := {| class_name := "Sub"; class_new := ret ∅ |}.

(** A base format for [x] and an extension that gives [x] a default. *)
Definition base_x_format : Format := Format_of Format_ (Some Plain) (json "x") [].

Definition x_with_default : Mapper := Mapper_defaultsTo (json "x") (VStr "d").

Definition extended_x_format : Format :=
  Format_of Format_ (Some Sub) x_with_default [json "x"].

(** [new Format(Plain, json`a`, json`b`)] *)
Definition ab_format : Format := Format_of Format_ (Some Plain) (json "a") [json "b"].

(** The format of the test suite ([test/JsonTest.js]), without
    [idResolver]; the numbers of the source are given as numbers. *)
Definition Foo : Class := {| class_name := "Foo"; class_new := ret ∅ |}.

Definition Foo_format : Format := Format_of Format_ (Some Foo) (json "bar") [].

Definition Test : Class := {| class_name := "Test"; class_new := ret ∅ |}.

Definition sum_bc `{Host} : jsfun := fun j =>
  b <- get "b" j ;;
  c <- get "c" j ;;
  ret (VNum (match ToNumber b, ToNumber c with
             | Fin p, Fin q => Fin (p + q)
             | _, _ => NaN
             end)).

Definition testFormat `{Host} : Format :=
  Format_of Format_ (Some Test) (json "isoMapping")
    [ JsonValue_to (json "nameMapping") "anotherName";
      Mapper_readonly (json "readonly");
      Mapper_writeonly (json "writeonly");
      json "preserveNull";
      json "butDropUndefined";
      Mapper_defaultsTo (json "defaultValueTest") (VStr "the default");
      stringBoolean_reader;
      stringBoolean_writer;
      boolean "numberBoolean";
      NumberMapper_max (NumberMapper_min (number_ "b") (Fin 5)) (Fin 10);
      NumberMapper_abs (number_ "c");
      JsonValue_rawTransform (json "sum") sum_bc None;
      JsonNode_is (node "singleFoo") (as_abstract Foo_format);
      JsonNode_is (node "nullFoo") (as_abstract Foo_format);
      Mapper_arrayOf (json "arrayOfFoos") (as_abstract Foo_format) ].

Definition jsonData : value :=
  VObj (Some "Object")
    {[ "isoMapping" := VStr "same name";
       "nameMapping" := VStr "other name";
       "readonly" := VStr "read only";
       "stringBoolean" := VStr "true";
       "numberBoolean" := VStr "0";
       "preserveNull" := VNull;
       "b" := VNum (Fin 14);
       "c" := VNum (Fin (-16));
       "singleFoo" := VObj (Some "Object") {[ "bar" := VStr "this is bar" ]};
       "arrayOfFoos" := VArr [VObj (Some "Object") {[ "bar" := VStr "first bar" ]};
                              VObj (Some "Object") {[ "bar" := VStr "second bar" ]}] ]}.

Definition test_model : value :=
  VObj (Some "Test")
    {[ "isoMapping" := VStr "same name";
       "anotherName" := VStr "other name";
       "_readonly" := VStr "this will never be set from the JSON to here";
       "preserveNull" := VNull;
       "defaultValueTest" := VStr "the default";
       "stringBoolean" := VBool true;
       "numberBoolean" := VBool false;
       "b" := VNum (Fin 10);
       "c" := VNum (Fin 16);
       "sum" := VNum (Fin (-2));
       "singleFoo" := VObj (Some "Foo") {[ "bar" := VStr "this is bar" ]};
       "nullFoo" := VNull;
       "arrayOfFoos" := VArr [VObj (Some "Foo") {[ "bar" := VStr "first bar" ]};
                              VObj (Some "Foo") {[ "bar" := VStr "second bar" ]}] ]}.

Definition test_written : value :=
  VObj None
    {[ "isoMapping" := VStr "same name";
       "nameMapping" := VStr "other name";
       "writeonly" := VStr "this will never be set to the JSON from here";
       "preserveNull" := VNull;
       "defaultValueTest" := VStr "the default";
       "stringBoolean" := VStr "true";
       "numberBoolean" := VBool false;
       "b" := VNum (Fin 10);
       "c" := VNum (Fin 16);
       "singleFoo" := VObj None {[ "bar" := VStr "this is bar" ]};
       "nullFoo" := VNull;
       "arrayOfFoos" := VArr [VObj None {[ "bar" := VStr "first bar" ]};
                              VObj None {[ "bar" := VStr "second bar" ]}] ]}.

(** [new Format(Plain, json`a`)] with [dropUndefined] switched off, and the
    formats its [readonly()] and the [writeonly()] of that return. *)
Definition keeping_format : Format := set_dropUndefined plain_format false.

Definition readonly_format : Format := Format_of (ReadOnlyFormat true) (Some Plain) (json "a") [].

Definition empty_object : value := VObj None ∅.

(** [new Format(Plain, number`n`)] *)
Definition number_format : Format :=
  Format_of Format_ (Some Plain) (@number_ no_parsing test_realm "n") [].

(** [new Format(Plain, json`a`, json`b`.readonly())],
    [new Format(Plain, json`a`, json`b`.writeonly())] and
    [new Format(Plain, json`a`, json`b`.rawTransform(j => j.b))], whose last
    mapper has no write function. *)
Definition a_readonly_b_format : Format :=
  Format_of Format_ (Some Plain) (json "a") [Mapper_readonly (json "b")].

Definition a_writeonly_b_format : Format :=
  Format_of Format_ (Some Plain) (json "a") [Mapper_writeonly (json "b")].

Definition writeless_b : Mapper := JsonValue_rawTransform (json "b") (get "b") None.

Definition a_writeless_b_format : Format :=
  Format_of Format_ (Some Plain) (json "a") [writeless_b].

(** The same with [.boolean()] applied to the mapper without write
    function. *)
Definition a_broken_b_format : Format :=
  Format_of Format_ (Some Plain) (json "a") [Mapper_boolean writeless_b].

(** [new Format(Plain, json`nameMapping`.to('anotherName'))] *)
Definition renaming_format : Format :=
  Format_of Format_ (Some Plain) (JsonValue_to (json "nameMapping") "anotherName") [].

Definition nameMapping_source : value := VObj None {[ "nameMapping" := VStr "mapped" ]}.


(** A lodash that finds nothing, for examples that only write, and a format
    with one [idResolver] mapper. *)
Definition finds_nothing : Lodash := fun _ _ _ => VUndefined.

Definition idInCollection_format : Format :=
  Format_of Format_ (Some Plain)
    (@Mapper_idResolver finds_nothing test_realm (json "idInCollection") [] None) [].

Definition resolved_model : value :=
  VObj (Some "Plain")
    {[ "idInCollection" := VObj None {[ "id" := VStr "2"; "title" := VStr "Second object" ]} ]}.

(** A second subclass, for chains of [extend]. *)
Definition SubSub : Class := {| class_name := "SubSub"; class_new := ret ∅ |}.

(** A nested format whose only mapper throws on read. *)
Definition throwing_format : Format := Format_of Format_ (Some Plain) exploding [].


(** A write function that counts its calls and returns [undefined]. *)
Definition silent_tick : jsfun := fun _ w =>
  match ambient w with
  | VNum (Fin q) => (Return VUndefined, World (console w) (VNum (Fin (q + 1))))
  | _ => (Return VUndefined, w)
  end.

Definition silent_ticking_format : Format :=
  Format_of Format_ (Some Plain) (JsonValue_rawTransform (json "n") (get "n") (Some silent_tick)) [].

(** Formats for the class [Test], whose [readonly] is a setter:
    [new Format(Test, json`readonly`)] and
    [new Format(Test, json`_readonly`, json`readonly`)]. *)
Definition Test_readonly_format : Format := Format_of Format_ (Some Test) (json "readonly") [].

Definition Test_shadowed_format : Format :=
  Format_of Format_ (Some Test) (json "_readonly") [json "readonly"].

Definition readonly_source : value :=
  VObj (Some "Object") {[ "_readonly" := VStr "kept"; "readonly" := VStr "read only" ]}.

(** [new Format(Test, json`writeonly`)], whose target has a getter only, and
    [new Format(Plain, json`__proto__`)]. *)
Definition Test_writeonly_format : Format := Format_of Format_ (Some Test) (json "writeonly") [].

Definition proto_format : Format := Format_of Format_ (Some Plain) (json "__proto__") [].

(** [new Format(Plain, node`toString`.is(Foo.format))] *)
Definition toString_node_format : Format :=
  Format_of Format_ (Some Plain) (JsonNode_is (node "toString") (as_abstract Foo_format)) [].

(** The empty object literal [{}]. *)
Definition empty_literal : value := VObj (Some "Object") ∅.

(** A realm with one class, [Loud], whose setter [x] prints and whose getter
    [y] throws, and a format for it. *)
Definition loud_realm : Realm :=
  {| slot_of c k :=
       if String.eqb c "Loud" && String.eqb k "x"
       then Accessor None (Some (fun this _ => console_error "x is set" ;;; ret this))
       else if String.eqb c "Loud" && String.eqb k "y"
       then Accessor (Some (fun _ => throw (VStr "no y"))) None
       else Absent;
     builtin_get _ _ := VUndefined |}.

Definition Loud : Class := {| class_name := "Loud"; class_new := ret ∅ |}.

Definition Loud_format : Format := @Format_of loud_realm Format_ (Some Loud) (@json loud_realm "x") [].
(** * Properties *)

(** ** The test suite, as a check of the embedding *)

Example testFormat_read :
  read_of (@testFormat no_parsing) jsonData world0 = (Return test_model, world0).
Proof. vm_compute. reflexivity. Qed.

Example testFormat_write :
  write_of (@testFormat no_parsing) test_model world0 = (Return test_written, world0).
Proof. vm_compute. reflexivity. Qed.

(** ** Accessors and inherited properties *)

(** Assigning a field for which the class has a setter runs the setter: the
    instance of [Test] gets no field [readonly]. *)
Example assignment_runs_setter :
  read_of Test_readonly_format readonly_source world0
  = (Return (VObj (Some "Test")
               {[ "_readonly" := VStr "this will never be set from the JSON to here" ]}),
     world0).
Proof. vm_compute. reflexivity. Qed.

(** A setter may overwrite what an earlier mapper has stored. *)
Example setter_overwrites_earlier_field :
  read_of Test_shadowed_format readonly_source world0
  = (Return (VObj (Some "Test")
               {[ "_readonly" := VStr "this will never be set from the JSON to here" ]}),
     world0) /\
  read (json "_readonly") readonly_source world0 = (Return (VStr "kept"), world0).
Proof. split; vm_compute; reflexivity. Qed.

(** Assigning a field for which the class has a getter only throws, which
    fails the whole read. *)
Example assignment_to_getter_throws :
  read_of Test_writeonly_format (VObj (Some "Object") {[ "writeonly" := VStr "w" ]}) world0
  = (Return VUndefined,
     World [ConsoleLog "A format read completely exploded."
              (TypeError "Cannot set property which has only a getter")] VNull).
Proof. vm_compute. reflexivity. Qed.

(** Assigning [__proto__] stores no field: [null] or an object replaces the
    prototype of the instance, any other value is ignored.  An object
    literal has no own [__proto__], so what [json`__proto__`] reads from it
    is [Object.prototype]. *)
Example proto_assignment_sets_prototype :
  read_of proto_format empty_literal world0 = (Return (VObj (Some "Object") ∅), world0) /\
  read_of proto_format (VObj None {[ "__proto__" := VNull ]}) world0
  = (Return (VObj None ∅), world0) /\
  read_of proto_format (VObj None {[ "__proto__" := VNum (Fin 5) ]}) world0
  = (Return (VObj (Some "Plain") ∅), world0).
Proof. repeat split; vm_compute; reflexivity. Qed.

(** A name the source inherits is read like an own one: [{}] has a
    [toString], which [node`toString`.is(Foo.format)] turns into a [Foo]. *)
Example inherited_property_is_read :
  read_of toString_node_format empty_literal world0
  = (Return (VObj (Some "Plain") {[ "toString" := VObj (Some "Foo") ∅ ]}), world0) /\
  read (json "constructor") (VObj (Some "Foo") ∅) world0 = (Return (VNative "Foo"), world0).
Proof. split; vm_compute; reflexivity. Qed.

(** Strings and arrays have a length and indices. *)
Example builtin_properties_are_read :
  read (json "length") (VStr "abc") world0 = (Return (VNum (Fin 3)), world0) /\
  read (json "length") (VArr [VNull; VNull]) world0 = (Return (VNum (Fin 2)), world0) /\
  read (json "1") (VStr "abc") world0 = (Return (VStr "b"), world0) /\
  read (json "0") (VArr [VBool true]) world0 = (Return (VBool true), world0) /\
  read (json "a") (VNum (Fin 1)) world0 = (Return VUndefined, world0).
Proof. repeat split; vm_compute; reflexivity. Qed.

(** A getter of the model is called on write. *)
Example getter_is_written :
  write_of Test_writeonly_format (VObj (Some "Test") ∅) world0
  = (Return (VObj None {[ "writeonly" := VStr "this will never be set to the JSON from here" ]}),
     world0).
Proof. vm_compute. reflexivity. Qed.

(** The effects of a setter are effects of the read, and a getter that
    throws makes the mapper's read function throw. *)
Example setter_effects_show :
  Format_read Loud_format (VObj None {[ "x" := VNum (Fin 1) ]}) world0
  = (Return (VObj (Some "Loud") ∅), World [ConsoleError "x is set"] VNull).
Proof. vm_compute. reflexivity. Qed.

Example getter_failure_is_not_contained :
  read (JsonNode_is (@node loud_realm "y") (as_abstract plain_format)) (VObj (Some "Loud") ∅) world0
  = (Throw (VStr "no y"), world0).
Proof. vm_compute. reflexivity. Qed.

(** ** The monad and the loops *)

Lemma bind_Return {A B} (m : M A) (k : A -> M B) w a w' :
  m w = (Return a, w') -> bind m k w = k a w'.
Proof. intros E. unfold bind. now rewrite E. Qed.

Lemma bind_Throw {A B} (m : M A) (k : A -> M B) w e w' :
  m w = (Throw e, w') -> bind m k w = (Throw e, w').
Proof. intros E. unfold bind. now rewrite E. Qed.

Lemma bind_inv {A B} (m : M A) (k : A -> M B) w b w2 :
  bind m k w = (Return b, w2) ->
  exists a w1, m w = (Return a, w1) /\ k a w1 = (Return b, w2).
Proof.
  unfold bind. destruct (m w) as [[a|e] w1]; intros E.
  - now exists a, w1.
  - discriminate.
Qed.

Lemma bind_assoc {A B C} (m : M A) (k : A -> M B) (h : B -> M C) w :
  bind (bind m k) h w = bind m (fun a => bind (k a) h) w.
Proof. unfold bind. now destruct (m w) as [[a|e] w1]. Qed.

Lemma forEach_app {A S} (body : A -> S -> M S) l1 l2 s w :
  forEach body (l1 ++ l2) s w = bind (forEach body l1 s) (forEach body l2) w.
Proof.
  revert s w. induction l1 as [|x l1 IH]; intros s w; simpl.
  - reflexivity.
  - unfold bind in *. destruct (body x s w) as [[s1|e] w1]; [|reflexivity].
    now rewrite IH.
Qed.

(** A loop whose body throws at some element stops there: the elements
    after it are not visited. *)
Lemma forEach_throw_at {A S} (body : A -> S -> M S) pre x post s w s1 w1 e w2 :
  forEach body pre s w = (Return s1, w1) ->
  body x s1 w1 = (Throw e, w2) ->
  forEach body (pre ++ x :: post) s w = (Throw e, w2).
Proof.
  intros Hpre Hx. rewrite forEach_app, (bind_Return _ _ _ _ _ Hpre). simpl.
  now apply bind_Throw.
Qed.

(** A loop that completes has completed on every prefix. *)
Lemma forEach_split {A S} (body : A -> S -> M S) pre x post s w s3 w3 :
  forEach body (pre ++ x :: post) s w = (Return s3, w3) ->
  exists s1 w1 s2 w2,
    forEach body pre s w = (Return s1, w1) /\
    body x s1 w1 = (Return s2, w2) /\
    forEach body post s2 w2 = (Return s3, w3).
Proof.
  rewrite forEach_app. intros E.
  apply bind_inv in E as (s1 & w1 & Hpre & E). simpl in E.
  apply bind_inv in E as (s2 & w2 & Hx & Hpost).
  now exists s1, w1, s2, w2.
Qed.

(** ** The constructor *)

(** [reduce] over the per-mapper closures runs them in list order. *)
Lemma fold_seq_reader `{Realm} (ms : list Mapper) (acc : reader) drop source out w :
  fold_left seq_reader (map mapper_reader ms) acc drop source out w
  = bind (acc drop source out) (run_readers drop source ms) w.
Proof.
  revert acc out w. induction ms as [|m ms IH]; intros acc out w; simpl.
  - unfold bind, run_readers. simpl. now destruct (acc drop source out w) as [[a|e] w1].
  - rewrite IH. unfold seq_reader. rewrite bind_assoc. reflexivity.
Qed.

Lemma constructor_inv `{Realm} k cl ms f :
  Format_constructor k cl ms = Return f ->
  ms <> [] /\ fclass f = k /\ _cl f = cl /\ _mappers f = ms /\ dropUndefined f = true /\
  forall drop source out w, _read f drop source out w = run_readers drop source ms out w.
Proof.
  unfold Format_constructor. destruct ms as [|m ms]; simpl; [discriminate|].
  intros [= <-]. simpl. repeat split; try done.
  intros drop source out w. rewrite fold_seq_reader. unfold run_readers. reflexivity.
Qed.

Lemma constructor_nonempty `{Realm} k cl ms :
  ms <> [] -> exists f, Format_constructor k cl ms = Return f.
Proof.
  destruct ms as [|m ms]; [done|]. intros _. unfold Format_constructor. simpl. eauto.
Qed.

(** What holds of every format a program can hold. *)
Lemma Configured_inv `{Realm} f :
  Configured f ->
  _mappers f <> [] /\
  forall drop source out w, _read f drop source out w = run_readers drop source (_mappers f) out w.
Proof.
  induction 1 as [k cl ms f Hf | f b _ IH].
  - apply constructor_inv in Hf as (? & _ & _ & -> & _ & ?). auto.
  - exact IH.
Qed.

Lemma Format_of_constructed `{Realm} k cl m ms :
  Format_constructor k cl (m :: ms) = Return (Format_of k cl m ms).
Proof. reflexivity. Qed.

Lemma Format_of_Configured `{Realm} k cl m ms : Configured (Format_of k cl m ms).
Proof. eapply Configured_new, Format_of_constructed. Defined.

(** ** The method a format provides *)

Lemma read_of_unrestricted f :
  (forall silent, fclass f <> WriteOnlyFormat silent) -> read_of f = Format_read f.
Proof. intros H. unfold read_of. destruct (fclass f) eqn:E; try done. now destruct (H silent). Qed.

Lemma write_of_unrestricted f :
  (forall silent, fclass f <> ReadOnlyFormat silent) -> write_of f = Format_write f.
Proof. intros H. unfold write_of. destruct (fclass f) eqn:E; try done. now destruct (H silent). Qed.

(** Only the methods of [Format] return objects. *)
Lemma read_of_object f source w cls out w' :
  read_of f source w = (Return (VObj cls out), w') ->
  Format_read f source w = (Return (VObj cls out), w').
Proof.
  unfold read_of. destruct (fclass f) as [|silent|silent]; try done.
  unfold WriteOnly_read, bind, console_error. now destruct silent.
Qed.

Lemma write_of_object f model w cls out w' :
  write_of f model w = (Return (VObj cls out), w') ->
  Format_write f model w = (Return (VObj cls out), w').
Proof.
  unfold write_of. destruct (fclass f) as [|silent|silent]; try done.
  unfold ReadOnly_write, bind, console_error. now destruct silent.
Qed.

(** ** Exceptions stop at the format *)

Lemma Format_read_caught f source w inst w0 e w2 :
  truthy source = true ->
  new_instance (_cl f) w = (Return inst, w0) ->
  _read f (dropUndefined f) source inst w0 = (Throw e, w2) ->
  Format_read f source w
  = (Return VUndefined, print (ConsoleLog "A format read completely exploded." e) w2).
Proof.
  intros Ht Hnew Hrun. unfold Format_read, try_catch. rewrite Ht. simpl.
  rewrite (bind_Return _ _ _ _ _ Hnew), (bind_Throw _ _ _ _ _ Hrun). reflexivity.
Qed.

Lemma Format_write_caught f model w e w2 :
  truthy model = true ->
  run_writers (dropUndefined f) model (List.filter has_write (_mappers f)) ∅ w = (Throw e, w2) ->
  Format_write f model w
  = (Return VUndefined, print (ConsoleLog "A format write completely exploded." e) w2).
Proof.
  intros Ht Hrun. unfold Format_write, try_catch. rewrite Ht. simpl.
  unfold run_writers in Hrun. rewrite (bind_Throw _ _ _ _ _ Hrun). reflexivity.
Qed.

Lemma Format_read_returns f source w : exists r w', Format_read f source w = (Return r, w').
Proof.
  unfold Format_read, try_catch. destruct (negb (truthy source)); [unfold ret; eauto|].
  match goal with |- context [match ?c with _ => _ end] => destruct c as [[a|e] w1] end;
    unfold bind, console_log, ret; eauto.
Qed.

Lemma Format_write_returns f model w : exists r w', Format_write f model w = (Return r, w').
Proof.
  unfold Format_write, try_catch. destruct (negb (truthy model)); [unfold ret; eauto|].
  match goal with |- context [match ?c with _ => _ end] => destruct c as [[a|e] w1] end;
    unfold bind, console_log, ret; eauto.
Qed.

(** C1.  For every configured format: when the mappers before [m] have been
    applied and the read function of [m] throws [e], [Format.read] logs [e]
    and returns [undefined]; the world it leaves is the one at the throw plus
    the log line, so no later mapper has run and the instance built so far is
    dropped.  The same holds of [Format.write] when applying a mapper's write
    function (its first or its second call) throws.  Neither method ever
    completes with a thrown value.  [Format.read] is the [read] of every
    format not made by [writeonly] and [Format.write] the [write] of every
    format not made by [readonly]; the replaced methods apply no mapper. *)
Theorem Format_read_write_firewall `{Realm} (f : Format) :
  Configured f ->
  (forall source w pre m post inst w0 out1 w1 e w2,
      truthy source = true ->
      _mappers f = pre ++ m :: post ->
      new_instance (_cl f) w = (Return inst, w0) ->
      run_readers (dropUndefined f) source pre inst w0 = (Return out1, w1) ->
      read m source w1 = (Throw e, w2) ->
      Format_read f source w
      = (Return VUndefined, print (ConsoleLog "A format read completely exploded." e) w2)) /\
  (forall model w pre m post out1 w1 e w2,
      truthy model = true ->
      List.filter has_write (_mappers f) = pre ++ m :: post ->
      run_writers (dropUndefined f) model pre ∅ w = (Return out1, w1) ->
      mapper_writer (dropUndefined f) model m out1 w1 = (Throw e, w2) ->
      Format_write f model w
      = (Return VUndefined, print (ConsoleLog "A format write completely exploded." e) w2)) /\
  (forall source w, exists r w', Format_read f source w = (Return r, w')) /\
  (forall model w, exists r w', Format_write f model w = (Return r, w')) /\
  ((forall silent, fclass f <> WriteOnlyFormat silent) -> read_of f = Format_read f) /\
  ((forall silent, fclass f <> ReadOnlyFormat silent) -> write_of f = Format_write f).
Proof.
  intros Hc. destruct (Configured_inv f Hc) as [_ Hrd].
  split; [|split; [|split; [|split; [|split]]]];
    [| | | | apply read_of_unrestricted | apply write_of_unrestricted].
  - intros source w pre m post inst w0 out1 w1 e w2 Ht Hms Hnew Hpre Hm.
    eapply Format_read_caught; [done..|].
    rewrite Hrd, Hms. eapply forEach_throw_at; [exact Hpre|].
    unfold mapper_reader. now apply bind_Throw.
  - intros model w pre m post out1 w1 e w2 Ht Hms Hpre Hm.
    apply Format_write_caught; [done|].
    rewrite Hms. eapply forEach_throw_at; [exact Hpre | exact Hm].
  - apply Format_read_returns.
  - apply Format_write_returns.
Qed.

Lemma Format_read_write_firewall_witness :
  Format_read exploding_format ab_object world0
  = (Return VUndefined, World [ConsoleLog "A format read completely exploded." (VStr "boom")] VNull) /\
  Format_write exploding_format ab_object world0
  = (Return VUndefined, World [ConsoleLog "A format write completely exploded." (VStr "bang")] VNull).
Proof.
  destruct (Format_read_write_firewall exploding_format (Format_of_Configured _ _ _ _))
    as (Hr & Hw & _).
  split.
  - apply (Hr ab_object world0 [json "a"] exploding [] (Some "Plain", ∅) world0
              (Some "Plain", <["a" := VStr "x"]> ∅) world0 (VStr "boom") world0); reflexivity.
  - apply (Hw ab_object world0 [json "a"] exploding [] (<["a" := VStr "x"]> ∅) world0
              (VStr "bang") world0); reflexivity.
Defined.

(** ** Absent input *)

Lemma Format_read_falsy f v w : truthy v = false -> Format_read f v w = (Return VNull, w).
Proof. intros Hv. unfold Format_read. now rewrite Hv. Qed.

Lemma Format_write_falsy f v w : truthy v = false -> Format_write f v w = (Return VNull, w).
Proof. intros Hv. unfold Format_write. now rewrite Hv. Qed.

(** C2, amended.  For every format whose [read] is the one of [Format] (it
    was not made by [writeonly]), reading [null] or [undefined] returns [null]
    and leaves the world alone; for every format whose [write] is the one of
    [Format] (it was not made by [readonly]), writing [null] or [undefined]
    does.  The replaced methods ignore their argument: they print an error
    and return [undefined], or throw when [silent] is [false]. *)
Theorem read_write_absent (f : Format) (v : value) (w : world) :
  v = VNull \/ v = VUndefined ->
  ((forall silent, fclass f <> WriteOnlyFormat silent) -> read_of f v w = (Return VNull, w)) /\
  ((forall silent, fclass f <> ReadOnlyFormat silent) -> write_of f v w = (Return VNull, w)) /\
  (forall silent, fclass f = WriteOnlyFormat silent ->
     read_of f v w
     = (if silent then Return VUndefined else Throw (VStr "This is a write only writer"),
        print (ConsoleError "This is a write only writer.") w)) /\
  (forall silent, fclass f = ReadOnlyFormat silent ->
     write_of f v w
     = (if silent then Return VUndefined else Throw (VStr "This is a read only writer"),
        print (ConsoleError "This is a read only writer.") w)).
Proof.
  intros Hv. assert (truthy v = false) as Hf by (destruct Hv; now subst).
  repeat split.
  - intros H. rewrite read_of_unrestricted by done. now apply Format_read_falsy.
  - intros H. rewrite write_of_unrestricted by done. now apply Format_write_falsy.
  - intros silent E. unfold read_of. rewrite E. now destruct silent.
  - intros silent E. unfold write_of. rewrite E. now destruct silent.
Qed.

Lemma read_write_absent_witness :
  read_of plain_format VNull world0 = (Return VNull, world0) /\
  write_of plain_format VNull world0 = (Return VNull, world0).
Proof.
  destruct (read_write_absent plain_format VNull world0 (or_introl eq_refl)) as (Hr & Hw & _).
  split; [apply Hr | apply Hw]; intros silent; discriminate.
Defined.

(** C2 as stated fails on a format made by [writeonly()]: its [read(null)]
    prints an error and returns [undefined]. *)
Lemma writeonly_read_null_counterexample :
  Format_writeonly plain_format None = Return writeonly_format /\
  Configured writeonly_format /\
  read_of writeonly_format VNull world0
  = (Return VUndefined, World [ConsoleError "This is a write only writer."] VNull) /\
  (read_of writeonly_format VNull world0).1 <> Return VNull.
Proof.
  split; [reflexivity|]. split; [apply Format_of_Configured|]. split; [reflexivity|].
  discriminate.
Qed.

(** C10, amended.  For every format whose [read] is the one of [Format],
    every falsy source reads as [null]; for every format whose [write] is the
    one of [Format], every falsy model writes as [null]; the world is left
    alone.  On a format made by [writeonly] (resp. [readonly]) the replaced
    [read] (resp. [write]) prints an error and returns [undefined], or throws
    when [silent] is [false], whatever the argument. *)
Theorem read_write_falsy (f : Format) (v : value) (w : world) :
  truthy v = false ->
  ((forall silent, fclass f <> WriteOnlyFormat silent) -> read_of f v w = (Return VNull, w)) /\
  ((forall silent, fclass f <> ReadOnlyFormat silent) -> write_of f v w = (Return VNull, w)) /\
  (forall silent, fclass f = WriteOnlyFormat silent ->
     read_of f v w
     = (if silent then Return VUndefined else Throw (VStr "This is a write only writer"),
        print (ConsoleError "This is a write only writer.") w)) /\
  (forall silent, fclass f = ReadOnlyFormat silent ->
     write_of f v w
     = (if silent then Return VUndefined else Throw (VStr "This is a read only writer"),
        print (ConsoleError "This is a read only writer.") w)).
Proof.
  intros Hf. repeat split.
  - intros H. rewrite read_of_unrestricted by done. now apply Format_read_falsy.
  - intros H. rewrite write_of_unrestricted by done. now apply Format_write_falsy.
  - intros silent E. unfold read_of. rewrite E. now destruct silent.
  - intros silent E. unfold write_of. rewrite E. now destruct silent.
Qed.

(** The falsy values: [undefined], [null], [false], [0], [-0], [NaN] and the
    empty string. *)
Lemma falsy_values :
  Forall (fun v => truthy v = false)
    [VUndefined; VNull; VBool false; VNum (Fin 0); VNum NegZero; VNum NaN; VStr ""].
Proof. repeat constructor. Qed.

Lemma read_write_falsy_witness :
  read_of plain_format (VNum (Fin 0)) world0 = (Return VNull, world0) /\
  write_of plain_format (VStr "") world0 = (Return VNull, world0).
Proof.
  split.
  - apply (read_write_falsy plain_format (VNum (Fin 0)) world0 eq_refl). intros s; discriminate.
  - apply (read_write_falsy plain_format (VStr "") world0 eq_refl). intros s; discriminate.
Defined.

(** C10 as stated fails on a format made by [readonly(false)]: its
    [write(0)] prints an error and throws. *)
Lemma readonly_write_zero_counterexample :
  Format_readonly plain_format (Some false) = Return readonly_loud_format /\
  Configured readonly_loud_format /\
  truthy (VNum (Fin 0)) = false /\
  write_of readonly_loud_format (VNum (Fin 0)) world0
  = (Throw (VStr "This is a read only writer"),
     World [ConsoleError "This is a read only writer."] VNull) /\
  (write_of readonly_loud_format (VNum (Fin 0)) world0).1 <> Return VNull.
Proof.
  split; [reflexivity|]. split; [apply Format_of_Configured|]. split; [reflexivity|].
  split; [reflexivity|]. discriminate.
Qed.

(** ** Formats restricted to one direction *)

(** C5.  For every configured format and every [silent] (left out, [true] or
    [false]), [readonly] and [writeonly] return formats with the same mappers
    and the same model class.  Every call of the restricted method prints an
    error; it throws when [silent] is [false] and returns [undefined]
    otherwise. *)
Theorem readonly_writeonly_restricted `{Realm} (f : Format) (silent : option bool) :
  Configured f ->
  exists fr fw,
    Format_readonly f silent = Return fr /\
    Format_writeonly f silent = Return fw /\
    _mappers fr = _mappers f /\ _cl fr = _cl f /\
    _mappers fw = _mappers f /\ _cl fw = _cl f /\
    (forall model w,
        write_of fr model w
        = (match silent with
           | Some false => Throw (VStr "This is a read only writer")
           | _ => Return VUndefined
           end, print (ConsoleError "This is a read only writer.") w)) /\
    (forall source w,
        read_of fw source w
        = (match silent with
           | Some false => Throw (VStr "This is a write only writer")
           | _ => Return VUndefined
           end, print (ConsoleError "This is a write only writer.") w)).
Proof.
  intros Hc. destruct (Configured_inv f Hc) as [Hne _].
  destruct (constructor_nonempty (ReadOnlyFormat (default true silent)) (_cl f) _ Hne) as [fr Hfr].
  destruct (constructor_nonempty (WriteOnlyFormat (default true silent)) (_cl f) _ Hne) as [fw Hfw].
  exists fr, fw. unfold Format_readonly, Format_writeonly.
  apply constructor_inv in Hfr as Ir. apply constructor_inv in Hfw as Iw.
  destruct Ir as (_ & Kr & Cr & Mr & _). destruct Iw as (_ & Kw & Cw & Mw & _).
  repeat split; try done.
  - intros model w. unfold write_of. rewrite Kr. now destruct silent as [[|]|].
  - intros source w. unfold read_of. rewrite Kw. now destruct silent as [[|]|].
Qed.

Lemma readonly_writeonly_restricted_witness :
  exists fr fw,
    Format_readonly plain_format (Some false) = Return fr /\
    Format_writeonly plain_format (Some false) = Return fw /\
    write_of fr ab_object world0
    = (Throw (VStr "This is a read only writer"),
       World [ConsoleError "This is a read only writer."] VNull) /\
    read_of fw ab_object world0
    = (Throw (VStr "This is a write only writer"),
       World [ConsoleError "This is a write only writer."] VNull).
Proof.
  destruct (readonly_writeonly_restricted plain_format (Some false) (Format_of_Configured _ _ _ _))
    as (fr & fw & Hr & Hw & _ & _ & _ & _ & Wr & Rw).
  exists fr, fw. repeat split; [exact Hr | exact Hw | apply Wr | apply Rw].
Defined.

(** ** NumberMapper *)

Lemma transform_NumberMapper nm r w :
  mclass nm = NumberMapper_ -> transform nm r w = NumberMapper_transform nm r w.
Proof. intros E. unfold transform. now rewrite E. Qed.

(** C9.  For every [NumberMapper] and every pair of steps, [transform]
    returns a [NumberMapper] whose write function is the receiver's: the
    write step is dropped.  Hence [abs], [min], [max] and every chain of them
    and of [transform] keep the write function of the mapper they start
    from. *)
Theorem NumberMapper_transform_keeps_write `{Host} (nm : Mapper) :
  mclass nm = NumberMapper_ ->
  (forall readStep writeStep,
      write (transform nm readStep writeStep) = write nm /\
      mclass (transform nm readStep writeStep) = NumberMapper_) /\
  write (NumberMapper_abs nm) = write nm /\
  (forall b, write (NumberMapper_min nm b) = write nm) /\
  (forall b, write (NumberMapper_max nm b) = write nm) /\
  (forall nm', refines nm nm' -> write nm' = write nm /\ mclass nm' = NumberMapper_).
Proof.
  intros E.
  assert (forall m r w, mclass m = NumberMapper_ ->
            write (transform m r w) = write m /\ mclass (transform m r w) = NumberMapper_) as T.
  { intros m r w Em. now rewrite transform_NumberMapper. }
  split; [intros; now apply T|].
  split; [now apply T|]. split; [intros; now apply T|]. split; [intros; now apply T|].
  intros nm' R.
  induction R as [|nm' r w _ [IHw IHc]|nm' _ [IHw IHc]|nm' b _ [IHw IHc]|nm' b _ [IHw IHc]];
    [done|..]; rewrite <- IHw;
    unfold NumberMapper_abs, NumberMapper_min, NumberMapper_max; now apply T.
Qed.

Lemma NumberMapper_transform_keeps_write_witness :
  write (@NumberMapper_max no_parsing (@NumberMapper_min no_parsing (@number_ no_parsing test_realm "b") (Fin 5)) (Fin 10))
  = write (@number_ no_parsing test_realm "b").
Proof.
  destruct (@NumberMapper_transform_keeps_write no_parsing (@number_ no_parsing test_realm "b") eq_refl)
    as (_ & _ & _ & _ & R).
  apply R. apply refines_max, refines_min, refines_refl.
Defined.

Lemma Qle_bool_total p q : Qle_bool p q = false -> Qle_bool q p = true.
Proof.
  intros E. apply Qle_bool_iff, Qlt_le_weak, Qnot_le_lt.
  intros L. apply Qle_bool_iff in L. congruence.
Qed.

Lemma num_leb_refl a : is_NaN a = false -> num_leb a a = true.
Proof.
  destruct a as [|[|]| |q]; simpl; try done. intros _. apply Qle_bool_iff, Qle_refl.
Qed.

Lemma num_leb_total a b :
  is_NaN a = false -> is_NaN b = false -> num_leb a b = false -> num_leb b a = true.
Proof.
  destruct a as [|[|]| |p], b as [|[|]| |q]; simpl; try done.
  - intros _ _ E. now rewrite E.
  - intros _ _ E. now apply negb_false_iff in E.
  - intros _ _. apply Qle_bool_total.
Qed.

(** [Math.max] of two numbers other than [NaN] is the greater of the two. *)
Lemma Math_max_greater a b :
  is_NaN a = false -> is_NaN b = false ->
  (Math_max a b = a \/ Math_max a b = b) /\
  num_leb a (Math_max a b) = true /\ num_leb b (Math_max a b) = true.
Proof.
  intros Ha Hb. unfold Math_max. rewrite Ha, Hb. simpl.
  destruct (num_leb a b) eqn:E.
  - split; [now right|]. split; [done|]. now apply num_leb_refl.
  - split; [now left|]. split; [now apply num_leb_refl|]. now apply num_leb_total.
Qed.

(** [Math.min] of two numbers other than [NaN] is the lesser of the two. *)
Lemma Math_min_lesser a b :
  is_NaN a = false -> is_NaN b = false ->
  (Math_min a b = a \/ Math_min a b = b) /\
  num_leb (Math_min a b) a = true /\ num_leb (Math_min a b) b = true.
Proof.
  intros Ha Hb. unfold Math_min. rewrite Ha, Hb. simpl.
  destruct (num_leb a b) eqn:E.
  - split; [now left|]. split; [now apply num_leb_refl|done].
  - split; [now right|]. split; [now apply num_leb_total|]. now apply num_leb_refl.
Qed.

Lemma truthy_number_not_NaN n : truthy (VNum n) = true -> is_NaN n = false.
Proof. now destruct n. Qed.

Lemma transform_read this r w source w0 v w1 :
  read this source w0 = (Return v, w1) ->
  read (transform this r w) source w0 = r v w1.
Proof.
  intros E. unfold transform.
  destruct (mclass this); simpl; now rewrite (bind_Return _ _ _ _ _ E).
Qed.

(** C7.  Let a [NumberMapper] read the value [v] from a source.  When [v] is
    falsy, [min(bound)] and [max(bound)] read [bound] and [abs()] reads [v]
    unchanged.  When [v] is a truthy number [n], [abs()] reads [Math.abs(n)],
    the absolute value of [n]; [min(bound)] reads the greater and
    [max(bound)] the lesser of [n] and [bound] (a bound that is [NaN]
    compares with nothing: both then read [NaN]).  The world is the one the
    underlying read leaves.  In particular
    [number().min(5).max(10)] reads 14 as 10, [number().abs()] reads -16 as
    16 and [number().min(5)] reads 0 as 5. *)
Theorem NumberMapper_clamping `{Host} `{Realm} (nm : Mapper) (bound : number)
    (source : value) (w w' : world) (v : value) :
  mclass nm = NumberMapper_ ->
  read nm source w = (Return v, w') ->
  (truthy v = false ->
     read (NumberMapper_min nm bound) source w = (Return (VNum bound), w') /\
     read (NumberMapper_max nm bound) source w = (Return (VNum bound), w') /\
     read (NumberMapper_abs nm) source w = (Return v, w')) /\
  (forall n, v = VNum n -> truthy v = true ->
     read (NumberMapper_abs nm) source w = (Return (VNum (Math_abs n)), w') /\
     (is_NaN bound = false ->
      exists hi lo,
        read (NumberMapper_min nm bound) source w = (Return (VNum hi), w') /\
        (hi = n \/ hi = bound) /\ num_leb n hi = true /\ num_leb bound hi = true /\
        read (NumberMapper_max nm bound) source w = (Return (VNum lo), w') /\
        (lo = n \/ lo = bound) /\ num_leb lo n = true /\ num_leb lo bound = true) /\
     (is_NaN bound = true ->
      read (NumberMapper_min nm bound) source w = (Return (VNum NaN), w') /\
      read (NumberMapper_max nm bound) source w = (Return (VNum NaN), w'))) /\
  (forall q, Math_abs (Fin q) = Fin (Qabs q)) /\
  (forall s, Math_abs (Infinity s) = Infinity false) /\
  (forall w0,
     read (NumberMapper_max (NumberMapper_min (number_ "b") (Fin 5)) (Fin 10)) b14 w0
     = (Return (VNum (Fin 10)), w0) /\
     read (NumberMapper_abs (number_ "c")) c_minus16 w0 = (Return (VNum (Fin 16)), w0) /\
     read (NumberMapper_min (number_ "b") (Fin 5)) b0 w0 = (Return (VNum (Fin 5)), w0)).
Proof.
  intros _ Hv. split; [|split; [|split; [|split]]]; try done.
  - intros Hf. unfold NumberMapper_min, NumberMapper_max, NumberMapper_abs.
    rewrite !(transform_read _ _ _ _ _ _ _ Hv). unfold lift. now rewrite Hf.
  - intros n -> Ht. pose proof (truthy_number_not_NaN n Ht) as Hn.
    unfold NumberMapper_min, NumberMapper_max, NumberMapper_abs.
    rewrite !(transform_read _ _ _ _ _ _ _ Hv). unfold lift. rewrite Ht. simpl.
    split; [done|]. split.
    + intros Hb.
      destruct (Math_max_greater n bound Hn Hb) as (? & ? & ?).
      destruct (Math_min_lesser n bound Hn Hb) as (? & ? & ?).
      exists (Math_max n bound), (Math_min n bound). repeat split; done.
    + intros Hb. unfold Math_max, Math_min. now rewrite Hb, orb_true_r.
Qed.

Lemma NumberMapper_clamping_witness :
  exists hi,
    read (@NumberMapper_min no_parsing (@number_ no_parsing test_realm "b") (Fin 5)) b14 world0
    = (Return (VNum hi), world0) /\
    num_leb (Fin 14) hi = true /\ num_leb (Fin 5) hi = true.
Proof.
  destruct (@NumberMapper_clamping no_parsing test_realm (@number_ no_parsing test_realm "b") (Fin 5) b14 world0 world0
              (VNum (Fin 14)) eq_refl eq_refl) as (_ & Hn & _).
  destruct (Hn (Fin 14) eq_refl eq_refl) as (_ & Hb & _).
  destruct (Hb eq_refl) as (hi & lo & Hmin & _ & Hn14 & Hb5 & _).
  exists hi. split; [exact Hmin|]. split; [exact Hn14 | exact Hb5].
Defined.

(** ** The write loop calls each write function twice *)

Lemma forEach_ext {A S} (body1 body2 : A -> S -> M S) l :
  (forall x s w, In x l -> body1 x s w = body2 x s w) ->
  forall s w, forEach body1 l s w = forEach body2 l s w.
Proof.
  induction l as [|x l IH]; intros Hb s w; simpl; [reflexivity|].
  unfold bind. rewrite (Hb x s w) by now left.
  destruct (body2 x s w) as [[s1|e] w1]; [|reflexivity].
  apply IH. intros y s' w' Hy. apply Hb. now right.
Qed.

Lemma mapper_writer_pure drop model m g out w :
  write m = Some g -> pure_fn g ->
  mapper_writer drop model m out w = mapper_writer_dedup drop model m out w.
Proof.
  intros Hw [r Hr]. unfold mapper_writer, mapper_writer_dedup, bind, call. rewrite Hw, Hr.
  destruct (r model) as [v|e] eqn:Er; [|reflexivity].
  destruct (drop && is_undefined v); [reflexivity|].
  unfold ret. now rewrite Hr, Er.
Qed.

Lemma get_pure `{Realm} k : pure_getters -> pure_fn (get k).
Proof.
  intros Hg. exists (fun o => (get k o world0).1). intros o w.
  destruct o as [| | | | | |cls ps| |]; try reflexivity.
  unfold get. destruct (ps !! k); [reflexivity|].
  unfold chain. destruct cls as [c|]; [|reflexivity].
  destruct (slot_of c k) as [|v|[g|] s] eqn:E; try reflexivity.
  destruct (Hg c k g s E) as [r Hr]. now rewrite !Hr.
Qed.

Lemma test_realm_pure_getters : @pure_getters test_realm.
Proof.
  intros c k g s. simpl. unfold test_slot. intros E.
  exists (fun o => (g o world0).1). intros o w.
  repeat match type of E with
         | (if ?b then _ else _) = _ => destruct b
         end; try discriminate; now injection E as <- <-.
Qed.

Lemma Format_write_written f model :
  truthy model = true ->
  Format_write f model
  = written (run_writers (dropUndefined f) model (List.filter has_write (_mappers f)) ∅).
Proof. intros Hm. unfold Format_write. now rewrite Hm. Qed.

Lemma written_Throw loop w e w' :
  loop w = (Throw e, w') ->
  written loop w
  = (Return VUndefined, print (ConsoleLog "A format write completely exploded." e) w').
Proof. intros E. unfold written, try_catch. now rewrite (bind_Throw _ _ _ _ _ E). Qed.

Lemma written_loop_split {A} (body : A -> props -> M props) pre x post w out1 w1 :
  forEach body pre ∅ w = (Return out1, w1) ->
  written (forEach body (pre ++ x :: post) ∅) w
  = written (bind (body x out1) (forEach body post)) w1.
Proof.
  intros Hpre. unfold written, try_catch. unfold bind at 1 3.
  rewrite forEach_app, (bind_Return _ _ _ _ _ Hpre). reflexivity.
Qed.

(** C8, amended.  In [Format.write], when the mappers before [m] have been
    applied, the write function of [m] is called once, for the
    [dropUndefined] check.  When that call throws, or returns [undefined]
    while [dropUndefined] is set, it is the only call: the loop goes on (or
    the method fails) from the world the call left, and nothing is assigned
    for [m].  When its result is kept, the function is called a second
    time, in the world the first call left, and the result of the second
    call is the one assigned; the loop goes on from the world the second
    call left.  For every model and every format whose write functions are
    pure, [Format.write] and the variant that calls each write function once
    have the same outcome and leave the same world. *)
Theorem write_function_calls (f : Format) (model : value) :
  (forall w pre m post g out1 w1,
      truthy model = true ->
      List.filter has_write (_mappers f) = pre ++ m :: post ->
      write m = Some g ->
      run_writers (dropUndefined f) model pre ∅ w = (Return out1, w1) ->
      (forall e w2,
          g model w1 = (Throw e, w2) ->
          Format_write f model w
          = (Return VUndefined, print (ConsoleLog "A format write completely exploded." e) w2)) /\
      (forall v w2,
          g model w1 = (Return v, w2) ->
          dropUndefined f && is_undefined v = true ->
          Format_write f model w
          = written (run_writers (dropUndefined f) model post out1) w2) /\
      (forall v w2,
          g model w1 = (Return v, w2) ->
          dropUndefined f && is_undefined v = false ->
          (forall e w3,
              g model w2 = (Throw e, w3) ->
              Format_write f model w
              = (Return VUndefined,
                 print (ConsoleLog "A format write completely exploded." e) w3)) /\
          (forall v' w3,
              g model w2 = (Return v', w3) ->
              Format_write f model w
              = written (run_writers (dropUndefined f) model post (<[name m := v']> out1)) w3))) /\
  ((forall m g, In m (_mappers f) -> write m = Some g -> pure_fn g) ->
   forall w, Format_write f model w = Format_write_dedup f model w).
Proof.
  split.
  - intros w pre m post g out1 w1 Hm Hms Hw Hpre.
    rewrite (Format_write_written _ _ Hm), Hms. unfold run_writers in *.
    rewrite (written_loop_split _ _ _ _ _ _ _ Hpre).
    set (rest := forEach (mapper_writer (dropUndefined f) model) post).
    unfold mapper_writer, call. rewrite Hw.
    split; [|split; [|split]].
    + intros e w2 Hg. apply written_Throw. unfold bind. now rewrite Hg.
    + intros v w2 Hg Hd. unfold written, try_catch, bind. now rewrite Hg, Hd.
    + intros e w3 Hg'. apply written_Throw. unfold bind. now rewrite H, H0, Hg'.
    + intros v' w3 Hg'. unfold written, try_catch, bind. now rewrite H, H0, Hg'.
  - intros Hpure w. unfold Format_write, Format_write_dedup.
    destruct (negb (truthy model)); [reflexivity|].
    unfold try_catch, bind.
    rewrite (forEach_ext (mapper_writer (dropUndefined f) model)
                         (mapper_writer_dedup (dropUndefined f) model)); [reflexivity|].
    intros m out w1 Hin. apply filter_In in Hin as [Hin Hhas].
    unfold has_write in Hhas. destruct (write m) as [g|] eqn:Hw; [|discriminate].
    eapply mapper_writer_pure; eauto.
Qed.

Lemma write_function_calls_witness :
  Format_write ticking_format ab_object (World [] (VNum (Fin 0)))
  = (Return (VObj None {[ "n" := VNum (Fin 2) ]}), World [] (VNum (Fin 2))) /\
  Format_write plain_format ab_object world0 = Format_write_dedup plain_format ab_object world0.
Proof.
  destruct (write_function_calls ticking_format ab_object) as [Hcalls _].
  destruct (write_function_calls plain_format ab_object) as [_ Hpure].
  split.
  - destruct (Hcalls (World [] (VNum (Fin 0))) []
                (JsonValue_rawTransform (json "n") (get "n") (Some tick)) [] tick
                ∅ (World [] (VNum (Fin 0))))
      as (_ & _ & Hkept); [reflexivity | reflexivity | reflexivity | reflexivity |].
    destruct (Hkept (VNum (Fin (0 + 1))) (World [] (VNum (Fin (0 + 1)))))
      as [_ Hsecond]; [reflexivity | reflexivity |].
    rewrite (Hsecond (VNum (Fin (0 + 1 + 1))) (World [] (VNum (Fin (0 + 1 + 1))))
               eq_refl).
    vm_compute. reflexivity.
  - apply Hpure. intros m g [<-|[]] [= <-]. apply get_pure, test_realm_pure_getters.
Defined.

(** C8 as stated fails on a write function that returns [undefined]: it
    counts its calls, and after [Format.write] the count is 1, not 2. *)
Lemma write_called_once_counterexample :
  Configured silent_ticking_format /\
  (exists m, _mappers silent_ticking_format = [m] /\ write m = Some silent_tick) /\
  (forall v c q,
      silent_tick v (World c (VNum (Fin q)))
      = (Return VUndefined, World c (VNum (Fin (q + 1))))) /\
  Format_write silent_ticking_format ab_object (World [] (VNum (Fin 0)))
  = (Return (VObj None ∅), World [] (VNum (Fin (0 + 1)))) /\
  VNum (Fin (0 + 1)) <> VNum (Fin (0 + 1 + 1)).
Proof.
  split; [apply Format_of_Configured|]. split; [eexists; split; reflexivity|].
  split; [reflexivity|]. split; [reflexivity|]. discriminate.
Qed.

Example Format_write_calls_twice :
  Format_write ticking_format ab_object (World [] (VNum (Fin 0)))
  = (Return (VObj None {[ "n" := VNum (Fin 2) ]}), World [] (VNum (Fin 2))) /\
  Format_write_dedup ticking_format ab_object (World [] (VNum (Fin 0)))
  = (Return (VObj None {[ "n" := VNum (Fin 1) ]}), World [] (VNum (Fin 1))).
Proof. split; vm_compute; reflexivity. Qed.

(** ** Assignments happen in list order *)

(** Assigning a plain field stores an own property and nothing else. *)
Lemma assign_data `{Realm} k v o w :
  data_slot o.1 k = true -> assign k v o w = (Return (o.1, <[k := v]> o.2), w).
Proof.
  unfold data_slot, assign. destruct (o.2 !! k); [reflexivity|].
  now destruct (chain o.1 k).
Qed.

Lemma mapper_reader_inv `{Realm} m drop source out w out' w' :
  mapper_reader m drop source out w = (Return out', w') ->
  exists v w1, read m source w = (Return v, w1) /\
    if drop && is_undefined v then out' = out /\ w' = w1
    else assign (modelName m) v out w1 = (Return out', w').
Proof.
  unfold mapper_reader. intros E. apply bind_inv in E as (v & w1 & Hr & E).
  exists v, w1. split; [exact Hr|]. destruct (drop && is_undefined v); [|exact E].
  unfold ret in E. now injection E as <- <-.
Qed.

Lemma mapper_reader_data `{Realm} m drop source out w out' w' :
  data_slot out.1 (modelName m) = true ->
  mapper_reader m drop source out w = (Return out', w') ->
  exists v, read m source w = (Return v, w') /\
    out' = if drop && is_undefined v then out else (out.1, <[modelName m := v]> out.2).
Proof.
  intros Hd E. apply mapper_reader_inv in E as (v & w1 & Hr & E). exists v.
  destruct (drop && is_undefined v).
  - destruct E as [-> ->]. auto.
  - rewrite (assign_data _ _ _ _ Hd) in E. injection E as <- <-. auto.
Qed.

(** Mappers whose targets are plain fields leave the class of [out] as it
    is. *)
Lemma run_readers_class `{Realm} drop source ms :
  forall out w out' w',
    Forall (fun m => data_slot out.1 (modelName m) = true) ms ->
    run_readers drop source ms out w = (Return out', w') -> out'.1 = out.1.
Proof.
  unfold run_readers.
  induction ms as [|m ms IH]; intros out w out' w' Hd E; simpl in E.
  - unfold ret in E. now injection E as <- <-.
  - apply bind_inv in E as (out1 & w1 & E1 & E2).
    inversion Hd as [|? ? Hm Hms]; subst.
    apply mapper_reader_data in E1 as (v & _ & ->); [|exact Hm].
    destruct (drop && is_undefined v); [now rewrite (IH _ _ _ _ Hms E2)|].
    now rewrite (IH (out.1, <[modelName m := v]> out.2) _ _ _ Hms E2).
Qed.

Lemma mapper_writer_inv drop model m out w out' w' :
  mapper_writer drop model m out w = (Return out', w') ->
  exists v w1, call (write m) model w = (Return v, w1) /\
    if drop && is_undefined v then out' = out /\ w' = w1
    else exists v', call (write m) model w1 = (Return v', w') /\ out' = <[name m := v']> out.
Proof.
  unfold mapper_writer. intros E. apply bind_inv in E as (v & w1 & Hr & E).
  exists v, w1. split; [exact Hr|]. destruct (drop && is_undefined v).
  - unfold ret in E. injection E as <- <-. auto.
  - apply bind_inv in E as (v' & w2 & Hr' & E). unfold ret in E. injection E as <- <-. eauto.
Qed.

(** Mappers that target other fields, all of them plain, leave a field of
    [out] as it is. *)
Lemma run_readers_other `{Realm} drop source x ms :
  Forall (fun m => modelName m <> x) ms ->
  forall out w out' w',
    Forall (fun m => data_slot out.1 (modelName m) = true) ms ->
    run_readers drop source ms out w = (Return out', w') -> out'.2 !! x = out.2 !! x.
Proof.
  unfold run_readers.
  induction 1 as [|m ms Hm _ IH]; intros out w out' w' Hd E; simpl in E.
  - unfold ret in E. now injection E as <- <-.
  - apply bind_inv in E as (out1 & w1 & E1 & E2).
    inversion Hd as [|? ? Hdm Hdms]; subst.
    apply mapper_reader_data in E1 as (v & _ & ->); [|exact Hdm].
    destruct (drop && is_undefined v); [now rewrite (IH _ _ _ _ Hdms E2)|].
    rewrite (IH (out.1, <[modelName m := v]> out.2) _ _ _ Hdms E2).
    now apply lookup_insert_ne.
Qed.

Lemma run_writers_other drop model x ms :
  Forall (fun m => name m <> x) ms ->
  forall out w out' w',
    run_writers drop model ms out w = (Return out', w') -> out' !! x = out !! x.
Proof.
  induction 1 as [|m ms Hm _ IH]; intros out w out' w' E; simpl in E.
  - unfold ret in E. now injection E as <- <-.
  - apply bind_inv in E as (out1 & w1 & E1 & E2).
    apply mapper_writer_inv in E1 as (v & w2 & _ & E1).
    rewrite (IH _ _ _ _ E2).
    destruct (drop && is_undefined v).
    + now destruct E1 as [-> _].
    + destruct E1 as (v' & _ & ->). now apply lookup_insert_ne.
Qed.

(** A [read] that returns an object has built an instance and applied every
    mapper. *)
Lemma Format_read_object `{Realm} f source w cls out w' :
  Configured f ->
  Format_read f source w = (Return (VObj cls out), w') ->
  truthy source = true /\
  exists inst w0,
    new_instance (_cl f) w = (Return inst, w0) /\
    run_readers (dropUndefined f) source (_mappers f) inst w0 = (Return (cls, out), w').
Proof.
  intros Hc. destruct (Configured_inv f Hc) as [_ Hrd].
  unfold Format_read, try_catch. destruct (truthy source); simpl; [|discriminate].
  intros E. split; [reflexivity|].
  destruct (new_instance (_cl f) w) as [[inst|e] w0] eqn:Hnew.
  - rewrite (bind_Return _ _ _ _ _ Hnew) in E. unfold bind in E. rewrite Hrd in E.
    destruct (run_readers _ _ _ _ _) as [[[cls1 out1]|e] w1] eqn:Hrun; [|discriminate].
    unfold ret in E. simpl in E. injection E as <- <- <-. eauto.
  - rewrite (bind_Throw _ _ _ _ _ Hnew) in E. discriminate.
Qed.

(** A [write] that returns an object has applied every mapper that has a
    write function. *)
Lemma Format_write_object f model w cls out w' :
  Format_write f model w = (Return (VObj cls out), w') ->
  truthy model = true /\ cls = None /\
  run_writers (dropUndefined f) model (List.filter has_write (_mappers f)) ∅ w = (Return out, w').
Proof.
  unfold Format_write, try_catch, bind. destruct (truthy model); simpl; [|discriminate].
  fold (run_writers (dropUndefined f) model).
  destruct (run_writers _ _ _ _ _) as [[out1|e] w1]; [|discriminate].
  unfold ret. now intros [= <- <- <-].
Qed.

(** The field a mapper targets after a completed [read], when it and the
    targets of the mappers after it are plain fields: its own value when
    kept, else what the mappers before it left. *)
Lemma read_last_assignment `{Realm} f pre m post source w cls out w' :
  Configured f ->
  _mappers f = pre ++ m :: post ->
  Forall (fun m' => modelName m' <> modelName m) post ->
  Format_read f source w = (Return (VObj cls out), w') ->
  exists inst w0 out1 w1 v w2,
    new_instance (_cl f) w = (Return inst, w0) /\
    run_readers (dropUndefined f) source pre inst w0 = (Return out1, w1) /\
    read m source w1 = (Return v, w2) /\
    (Forall (fun m' => data_slot out1.1 (modelName m') = true) (m :: post) ->
     cls = out1.1 /\
     out !! modelName m
     = if dropUndefined f && is_undefined v then out1.2 !! modelName m else Some v).
Proof.
  intros Hc Hms Hpost E.
  apply Format_read_object in E as (_ & inst & w0 & Hnew & Hrun); [|done].
  rewrite Hms in Hrun. apply forEach_split in Hrun as (out1 & w1 & out2 & w2 & Hpre & Hm & Hrest).
  pose proof Hm as Hm'. apply mapper_reader_inv in Hm' as (v & w2' & Hv & _).
  exists inst, w0, out1, w1, v, w2'. split; [done|]. split; [done|]. split; [done|].
  intros Hd. inversion Hd as [|? ? Hdm Hdpost]; subst.
  apply mapper_reader_data in Hm as (v' & Hv' & ->); [|exact Hdm].
  rewrite Hv in Hv'. injection Hv' as <- <-.
  assert (Hcls : (if dropUndefined f && is_undefined v then out1
                  else (out1.1, <[modelName m := v]> out1.2)).1 = out1.1)
    by now destruct (dropUndefined f && is_undefined v).
  rewrite <- Hcls in Hdpost. split.
  - apply run_readers_class in Hrest; [|exact Hdpost].
    now destruct (dropUndefined f && is_undefined v).
  - apply (run_readers_other _ _ _ _ Hpost) in Hrest; [|exact Hdpost]. simpl in Hrest.
    rewrite Hrest. destruct (dropUndefined f && is_undefined v); [reflexivity|].
    apply lookup_insert_eq.
Qed.

Lemma new_instance_class cl w inst w0 :
  new_instance cl w = (Return inst, w0) ->
  exists c, cl = Some c /\ inst.1 = Some (class_name c).
Proof.
  destruct cl as [c|]; simpl; [|discriminate]. intros E.
  apply bind_inv in E as (ps & w1 & _ & E). unfold ret in E. injection E as <- <-. eauto.
Qed.

(** The same for a format whose targets are all plain fields of its class:
    the instance returned is of that class. *)
Lemma read_last_assignment_plain `{Realm} f pre m post source w cls out w' :
  Configured f ->
  plain_targets f ->
  _mappers f = pre ++ m :: post ->
  Forall (fun m' => modelName m' <> modelName m) post ->
  Format_read f source w = (Return (VObj cls out), w') ->
  exists inst w0 out1 w1 v w2,
    new_instance (_cl f) w = (Return inst, w0) /\
    run_readers (dropUndefined f) source pre inst w0 = (Return out1, w1) /\
    read m source w1 = (Return v, w2) /\
    cls = inst.1 /\
    out !! modelName m
    = if dropUndefined f && is_undefined v then out1.2 !! modelName m else Some v.
Proof.
  intros Hc Hplain Hms Hpost E.
  destruct (read_last_assignment f _ _ _ _ _ _ _ _ Hc Hms Hpost E)
    as (inst & w0 & out1 & w1 & v & w2 & Hnew & Hpre & Hv & Hout).
  exists inst, w0, out1, w1, v, w2. do 3 (split; [done|]).
  destruct (new_instance_class _ _ _ _ Hnew) as (c & Hcl & Hic).
  specialize (Hplain c Hcl). rewrite Hms, <- Hic in Hplain.
  apply Forall_app in Hplain as [Hdpre Hdpost].
  pose proof (run_readers_class _ _ _ _ _ _ _ Hdpre Hpre) as Hc1.
  rewrite <- Hc1 in Hdpost. destruct (Hout Hdpost) as [-> Hx]. auto.
Qed.

Lemma filter_has_write_split pre m post g :
  write m = Some g ->
  List.filter has_write (pre ++ m :: post)
  = List.filter has_write pre ++ m :: List.filter has_write post.
Proof.
  intros Hw. rewrite List.filter_app. simpl. unfold has_write at 2. now rewrite Hw.
Qed.

Lemma Forall_filter_has_write (P : Mapper -> Prop) ms :
  Forall P ms -> Forall P (List.filter has_write ms).
Proof.
  rewrite !List.Forall_forall. intros H m Hin. apply filter_In in Hin as [Hin _]. auto.
Qed.

(** The field a mapper writes after a completed [write], when no later
    mapper with a write function has its source name: the result of the
    second call of its write function when the first result is kept, else
    what the mappers before it left. *)
Lemma write_last_assignment f pre m post g model w cls out w' :
  _mappers f = pre ++ m :: post ->
  write m = Some g ->
  Forall (fun m' => name m' <> name m) (List.filter has_write post) ->
  Format_write f model w = (Return (VObj cls out), w') ->
  exists out1 w1 v w2,
    run_writers (dropUndefined f) model (List.filter has_write pre) ∅ w = (Return out1, w1) /\
    g model w1 = (Return v, w2) /\
    if dropUndefined f && is_undefined v then out !! name m = out1 !! name m
    else exists v' w3, g model w2 = (Return v', w3) /\ out !! name m = Some v'.
Proof.
  intros Hms Hw Hpost E.
  apply Format_write_object in E as (_ & _ & Hrun).
  rewrite Hms, (filter_has_write_split _ _ _ _ Hw) in Hrun.
  apply forEach_split in Hrun as (out1 & w1 & out2 & w2 & Hpre & Hm & Hrest).
  apply mapper_writer_inv in Hm as (v & w3 & Hv & Hm). unfold call in Hv, Hm. rewrite Hw in Hv, Hm.
  exists out1, w1, v, w3. repeat split; try done.
  rewrite (run_writers_other _ _ _ _ Hpost _ _ _ _ Hrest).
  destruct (dropUndefined f && is_undefined v).
  - now destruct Hm as [-> _].
  - destruct Hm as (v' & Hv' & ->). exists v', w2. split; [done|]. apply lookup_insert_eq.
Qed.

(** C3, amended.  Let [m] be the last mapper of a configured format with its
    target field, so the later of any two mappers with that target, and let
    that field and the targets of the mappers after [m] be plain fields of
    the instance as the mappers before [m] left it (its class has no
    accessor of such a name).  After a [read] that returns an instance, the
    field holds what [m] read, unless that is [undefined] while
    [dropUndefined] is set: then [m] assigns nothing and the field is as the
    mappers before [m] left it.  Likewise, when [m] is the last mapper with
    its source name and has a write function, after a [write] that returns
    an object the field holds what [m] wrote (the result of the second call
    of its write function), unless the first result is [undefined] while
    [dropUndefined] is set: then the field is as the mappers before [m] left
    it. *)
Theorem later_mapper_wins `{Realm} (f : Format) (pre : list Mapper) (m : Mapper)
    (post : list Mapper) :
  Configured f ->
  _mappers f = pre ++ m :: post ->
  (Forall (fun m' => modelName m' <> modelName m) post ->
   forall source w cls out w',
     read_of f source w = (Return (VObj cls out), w') ->
     exists inst w0 out1 w1 v w2,
       new_instance (_cl f) w = (Return inst, w0) /\
       run_readers (dropUndefined f) source pre inst w0 = (Return out1, w1) /\
       read m source w1 = (Return v, w2) /\
       (Forall (fun m' => data_slot out1.1 (modelName m') = true) (m :: post) ->
        out !! modelName m
        = if dropUndefined f && is_undefined v then out1.2 !! modelName m else Some v)) /\
  (Forall (fun m' => name m' <> name m) post ->
   forall g model w cls out w',
     write m = Some g ->
     write_of f model w = (Return (VObj cls out), w') ->
     exists out1 w1 v w2,
       run_writers (dropUndefined f) model (List.filter has_write pre) ∅ w = (Return out1, w1) /\
       g model w1 = (Return v, w2) /\
       if dropUndefined f && is_undefined v then out !! name m = out1 !! name m
       else exists v' w3, g model w2 = (Return v', w3) /\ out !! name m = Some v').
Proof.
  intros Hc Hms. split.
  - intros Hpost source w cls out w' E. apply read_of_object in E.
    destruct (read_last_assignment _ _ _ _ _ _ _ _ _ Hc Hms Hpost E)
      as (inst & w0 & out1 & w1 & v & w2 & Hnew & Hpre & Hv & Hout).
    exists inst, w0, out1, w1, v, w2. repeat split; try done.
    intros Hd. now destruct (Hout Hd).
  - intros Hpost g model w cls out w' Hw E. apply write_of_object in E.
    eapply write_last_assignment; eauto using Forall_filter_has_write.
Qed.

Lemma later_mapper_wins_witness :
  exists out,
    read_of clash_format xy_object world0 = (Return (VObj (Some "Plain") out), world0) /\
    out !! "x" = Some (VNum (Fin 2)).
Proof.
  exists {[ "x" := VNum (Fin 2) ]}. split; [reflexivity|].
  destruct (later_mapper_wins clash_format [json "x"] (JsonValue_to (json "y") "x") []
              (Format_of_Configured _ _ _ _) eq_refl) as [Hr _].
  destruct (Hr (List.Forall_nil _) xy_object world0 (Some "Plain") {[ "x" := VNum (Fin 2) ]} world0
              eq_refl) as (inst & w0 & out1 & w1 & v & w2 & Hnew & Hpre & Hv & Hout).
  injection Hnew as <- <-. injection Hpre as <- <-. injection Hv as <- <-.
  apply Hout. repeat constructor.
Defined.

(** C3 as stated fails on that pair: both mappers target [stringBoolean],
    the later one reads [undefined], which is dropped, and the field keeps
    the value of the earlier one. *)
Lemma earlier_mapper_wins_counterexample :
  Configured stringBoolean_format /\
  _mappers stringBoolean_format = [stringBoolean_reader; stringBoolean_writer] /\
  modelName stringBoolean_reader = modelName stringBoolean_writer /\
  read stringBoolean_reader stringBoolean_source world0 = (Return (VBool true), world0) /\
  read stringBoolean_writer stringBoolean_source world0 = (Return VUndefined, world0) /\
  read_of stringBoolean_format stringBoolean_source world0
  = (Return (VObj (Some "Plain") {[ "stringBoolean" := VBool true ]}), world0) /\
  prop {[ "stringBoolean" := VBool true ]} "stringBoolean" <> VUndefined.
Proof.
  split; [apply Format_of_Configured|]. repeat split; try reflexivity. discriminate.
Qed.

(** ** Extension *)

(** C4, amended.  For every configured format, class [C] and mappers [ms],
    [extend] returns a configured [Format] for [C] whose mapper list is [ms]
    followed by the base list, with [dropUndefined] set.  A base mapper [b]
    that is the last of the base list with its target then comes after every
    extension mapper: after a [read] that returns an instance, and provided
    the target of [b] and those of the base mappers after it are plain
    fields of the instance (its class has no accessor of such a name), the
    field holds what [b] read, unless that is [undefined], in which case the
    field is as the extension mappers and the base mappers before [b] left
    it; and the same on [write] with the source name, where the object
    written has no accessors. *)
Theorem extend_prepends `{Realm} (f : Format) (C : Class) (ms : list Mapper) :
  Configured f ->
  exists f',
    Format_extend f (Some C) ms = Return f' /\
    Configured f' /\ fclass f' = Format_ /\ _cl f' = Some C /\
    _mappers f' = ms ++ _mappers f /\ dropUndefined f' = true /\
    forall pre b post,
      _mappers f = pre ++ b :: post ->
      (Forall (fun m' => modelName m' <> modelName b) post ->
       forall source w cls out w',
         read_of f' source w = (Return (VObj cls out), w') ->
         exists inst w0 out1 w1 v w2,
           new_instance (Some C) w = (Return inst, w0) /\
           run_readers true source (ms ++ pre) inst w0 = (Return out1, w1) /\
           read b source w1 = (Return v, w2) /\
           (Forall (fun m' => data_slot out1.1 (modelName m') = true) (b :: post) ->
            out !! modelName b
            = if is_undefined v then out1.2 !! modelName b else Some v)) /\
      (Forall (fun m' => name m' <> name b) post ->
       forall g model w cls out w',
         write b = Some g ->
         write_of f' model w = (Return (VObj cls out), w') ->
         exists out1 w1 v w2,
           run_writers true model (List.filter has_write (ms ++ pre)) ∅ w = (Return out1, w1) /\
           g model w1 = (Return v, w2) /\
           if is_undefined v then out !! name b = out1 !! name b
           else exists v' w3, g model w2 = (Return v', w3) /\ out !! name b = Some v').
Proof.
  intros Hc. destruct (Configured_inv f Hc) as [Hne _].
  assert (ms ++ _mappers f <> []) as Hne' by (destruct ms; [done | discriminate]).
  destruct (constructor_nonempty Format_ (Some C) _ Hne') as [f' Hf'].
  exists f'. split; [exact Hf'|].
  pose proof (Configured_new _ _ _ _ Hf') as Hc'.
  apply constructor_inv in Hf' as (_ & Hk & Hcl & Hms & Hd & _).
  do 5 (split; [done|]). intros pre b post Hb.
  assert (_mappers f' = (ms ++ pre) ++ b :: post) as Hsplit
    by (rewrite Hms, Hb; now rewrite <- List.app_assoc).
  split.
  - intros Hpost source w cls out w' E. apply read_of_object in E.
    destruct (read_last_assignment f' _ _ _ _ _ _ _ _ Hc' Hsplit Hpost E)
      as (inst & w0 & out1 & w1 & v & w2 & Hnew & Hpre & Hv & Hout).
    rewrite Hcl, Hd in *. simpl in Hout.
    exists inst, w0, out1, w1, v, w2. repeat split; try done.
    intros Hdata. now destruct (Hout Hdata).
  - intros Hpost g model w cls out w' Hw E. apply write_of_object in E.
    apply Forall_filter_has_write in Hpost.
    destruct (write_last_assignment f' _ _ _ _ _ _ _ _ _ Hsplit Hw Hpost E)
      as (out1 & w1 & v & w2 & ? & ? & ?).
    rewrite Hd in *. simpl in *. eauto 10.
Qed.

Lemma extend_prepends_witness :
  exists f' out,
    Format_extend base_x_format (Some Sub) [JsonValue_to (json "y") "x"] = Return f' /\
    _cl f' = Some Sub /\ _mappers f' = [JsonValue_to (json "y") "x"; json "x"] /\
    read_of f' xy_object world0 = (Return (VObj (Some "Sub") out), world0) /\
    out !! "x" = Some (VNum (Fin 1)).
Proof.
  destruct (extend_prepends base_x_format Sub [JsonValue_to (json "y") "x"]
              (Format_of_Configured _ _ _ _))
    as (f' & He & _ & _ & Hcl & Hms & _ & Hlast).
  exists f', {[ "x" := VNum (Fin 1) ]}.
  split; [exact He|]. split; [exact Hcl|]. split; [exact Hms|].
  injection He as <-.
  split; [reflexivity|].
  destruct (Hlast [] (json "x") [] eq_refl) as [Hr _].
  destruct (Hr (List.Forall_nil _) xy_object world0 (Some "Sub") {[ "x" := VNum (Fin 1) ]} world0
              eq_refl) as (inst & w0 & out1 & w1 & v & w2 & Hnew & Hpre & Hv & Hout).
  injection Hnew as <- <-. injection Hpre as <- <-. injection Hv as <- <-.
  apply Hout. repeat constructor.
Defined.

(** C4 as stated fails on that extension: the base mapper and the extension
    mapper share the field [x]; on a source (a model) without [x] the base
    mapper reads (writes) [undefined], which is dropped, and the value of
    the extension mapper stays. *)
Lemma extension_mapper_wins_counterexample :
  Format_extend base_x_format (Some Sub) [x_with_default] = Return extended_x_format /\
  modelName x_with_default = modelName (json "x") /\
  name x_with_default = name (json "x") /\
  read (json "x") (VObj None ∅) world0 = (Return VUndefined, world0) /\
  read x_with_default (VObj None ∅) world0 = (Return (VStr "d"), world0) /\
  read_of extended_x_format (VObj None ∅) world0
  = (Return (VObj (Some "Sub") {[ "x" := VStr "d" ]}), world0) /\
  write_of extended_x_format (VObj (Some "Sub") ∅) world0
  = (Return (VObj None {[ "x" := VStr "d" ]}), world0) /\
  prop {[ "x" := VStr "d" ]} "x" <> VUndefined.
Proof. repeat split; try reflexivity. discriminate. Qed.

(** ** Round trip *)

Lemma is_undefined_false v : v <> VUndefined -> is_undefined v = false.
Proof. now destruct v. Qed.

(** C6, amended.  Let a configured format contain the plain entry mapper
    [json`x`], with no later mapper in the list that targets the model field
    [x] and no later mapper with a write function that has the source name
    [x], and let [x] and the targets of the later mappers be plain fields of
    the instance as the mappers before [json`x`] left it (its class has no
    accessor of such a name).  For every source object in which [x] is
    present (an own property that holds a value other than [undefined]):
    when [read] returns an instance, the instance holds that value under
    [x], and when [write] of that instance returns an object, the field [x]
    of that object holds the very value the source holds (which JavaScript's
    [===] equates with itself unless it is [NaN]). *)
Theorem json_round_trip `{Realm} (f : Format) (x : string) (pre post : list Mapper) :
  Configured f ->
  _mappers f = pre ++ json x :: post ->
  Forall (fun m' => modelName m' <> x) post ->
  Forall (fun m' => name m' <> x) (List.filter has_write post) ->
  forall cls fields v w mcls model w1,
    fields !! x = Some v ->
    v <> VUndefined ->
    read_of f (VObj cls fields) w = (Return (VObj mcls model), w1) ->
    exists inst w0 out1 w3,
      new_instance (_cl f) w = (Return inst, w0) /\
      run_readers (dropUndefined f) (VObj cls fields) pre inst w0 = (Return out1, w3) /\
      (Forall (fun m' => data_slot out1.1 (modelName m') = true) (json x :: post) ->
       model !! x = Some v /\
       forall ocls out w2,
         write_of f (VObj mcls model) w1 = (Return (VObj ocls out), w2) ->
         out !! x = Some v /\ prop out x = prop fields x).
Proof.
  intros Hc Hms Hpm Hpn cls fields v w mcls model w1 Hx Hv Hread.
  pose proof (is_undefined_false v Hv) as Hu.
  apply read_of_object in Hread.
  destruct (read_last_assignment f _ _ _ _ _ _ _ _ Hc Hms Hpm Hread)
    as (inst & w0 & out1 & w3 & v0 & w4 & Hnew & Hpre & Hr & Hmodel).
  exists inst, w0, out1, w3. split; [exact Hnew|]. split; [exact Hpre|].
  intros Hd. destruct (Hmodel Hd) as [_ Hmx]. clear Hmodel.
  simpl in Hr, Hmx. rewrite Hx in Hr. unfold ret in Hr.
  injection Hr as <- <-. rewrite Hu, andb_false_r in Hmx.
  split; [exact Hmx|].
  intros ocls out w2 Hwrite. apply write_of_object in Hwrite.
  destruct (write_last_assignment f _ _ _ (get x) _ _ _ _ _ Hms eq_refl Hpn Hwrite)
    as (out2 & w5 & v1 & w6 & _ & Hg & Hout).
  simpl in Hg, Hout. rewrite Hmx in Hg. unfold ret in Hg.
  injection Hg as <- <-. rewrite Hu, andb_false_r in Hout.
  destruct Hout as (v' & w7 & Hg' & Hout).
  rewrite Hmx in Hg'. unfold ret in Hg'. injection Hg' as <- <-.
  split; [exact Hout|]. unfold prop. now rewrite Hout, Hx.
Qed.

Lemma json_round_trip_witness :
  exists model out,
    read_of ab_format ab_object world0 = (Return (VObj (Some "Plain") model), world0) /\
    write_of ab_format (VObj (Some "Plain") model) world0 = (Return (VObj None out), world0) /\
    out !! "a" = Some (VStr "x").
Proof.
  exists {[ "a" := VStr "x"; "b" := VStr "y" ]}, {[ "a" := VStr "x"; "b" := VStr "y" ]}.
  split; [reflexivity|]. split; [reflexivity|].
  destruct (json_round_trip ab_format "a" [] [json "b"] (Format_of_Configured _ _ _ _) eq_refl
              ltac:(repeat constructor; discriminate) ltac:(repeat constructor; discriminate)
              None (<["a" := VStr "x"]> (<["b" := VStr "y"]> ∅)) (VStr "x") world0
              (Some "Plain") {[ "a" := VStr "x"; "b" := VStr "y" ]} world0)
    as (inst & w0 & out1 & w3 & Hnew & Hpre & Hround);
    [reflexivity | discriminate | reflexivity |].
  injection Hnew as <- <-. injection Hpre as <- <-.
  destruct Hround as [_ Hwrite]; [repeat constructor|].
  now destruct (Hwrite None {[ "a" := VStr "x"; "b" := VStr "y" ]} world0 eq_refl).
Defined.

(** C6 as stated fails on a format with a second mapper for the same model
    field: [json`x`] is a plain entry mapper and [x] is present, yet the
    value read from [y] overwrites it and comes back under [x]. *)
Lemma round_trip_clash_counterexample :
  Configured clash_format /\
  In (json "x") (_mappers clash_format) /\
  read_of clash_format xy_object world0
  = (Return (VObj (Some "Plain") {[ "x" := VNum (Fin 2) ]}), world0) /\
  write_of clash_format (VObj (Some "Plain") {[ "x" := VNum (Fin 2) ]}) world0
  = (Return (VObj None {[ "x" := VNum (Fin 2); "y" := VNum (Fin 2) ]}), world0) /\
  get "x" xy_object world0 = (Return (VNum (Fin 1)), world0) /\
  get "x" (VObj None {[ "x" := VNum (Fin 2); "y" := VNum (Fin 2) ]}) world0
  = (Return (VNum (Fin 2)), world0) /\
  VNum (Fin 2) <> VNum (Fin 1).
Proof.
  split; [apply Format_of_Configured|]. split; [now left|].
  repeat split; try reflexivity. discriminate.
Qed.

(** * Further properties of the code *)

(** ** The constructor and the derived formats *)

(** X1.  The constructor fails exactly on an empty mapper list ([reduce] without
    an initial value); on any other list it returns a format of the given
    class with the given model class and mappers and with [dropUndefined]
    set. *)
Theorem Format_constructor_fails_iff_empty `{Realm} (k : FormatClass) (cl : option Class)
    (ms : list Mapper) :
  (ms = [] ->
   Format_constructor k cl ms
   = Throw (TypeError "Reduce of empty array with no initial value")) /\
  (ms <> [] ->
   exists f, Format_constructor k cl ms = Return f /\
             fclass f = k /\ _cl f = cl /\ _mappers f = ms /\ dropUndefined f = true) /\
  ((exists f, Format_constructor k cl ms = Return f) <-> ms <> []).
Proof.
  split; [now intros ->|]. split.
  - intros Hne. destruct (constructor_nonempty k cl ms Hne) as [f Hf]. exists f.
    split; [exact Hf|]. now apply constructor_inv in Hf as (_ & ? & ? & ? & ? & _).
  - split.
    + intros [f Hf]. now apply constructor_inv in Hf as (? & _).
    + apply constructor_nonempty.
Qed.

Lemma Format_constructor_fails_iff_empty_witness :
  Format_constructor Format_ (Some Plain) []
  = Throw (TypeError "Reduce of empty array with no initial value") /\
  exists f, Format_constructor Format_ (Some Plain) [json "a"] = Return f /\ _mappers f = [json "a"].
Proof.
  destruct (Format_constructor_fails_iff_empty Format_ (Some Plain) []) as (He & _).
  destruct (Format_constructor_fails_iff_empty Format_ (Some Plain) [json "a"]) as (_ & Hn & _).
  split; [exact (He eq_refl)|].
  destruct (Hn ltac:(discriminate)) as (f & Hf & _ & _ & Hms & _).
  exists f. split; [exact Hf | exact Hms].
Defined.

(** X2.  The reader the constructor compiles with [map] and [reduce] applies the
    mappers one after the other in list order, each to the [out] the
    previous one left, and stops at the first one that throws. *)
Theorem compiled_reader_in_list_order `{Realm} (k : FormatClass) (cl : option Class)
    (ms : list Mapper) (f : Format) :
  Format_constructor k cl ms = Return f ->
  forall drop source out w,
    _read f drop source out w
    = forEach (fun m o => mapper_reader m drop source o) ms out w.
Proof.
  intros Hf. now apply constructor_inv in Hf as (_ & _ & _ & _ & _ & ?).
Qed.

Lemma compiled_reader_in_list_order_witness :
  _read ab_format true ab_object (Some "Plain", ∅) world0
  = forEach (fun m o => mapper_reader m true ab_object o) [json "a"; json "b"]
            (Some "Plain", ∅) world0.
Proof.
  apply (compiled_reader_in_list_order Format_ (Some Plain) [json "a"; json "b"] ab_format eq_refl).
Defined.

Lemma Format_read_ext f g :
  _cl f = _cl g -> dropUndefined f = dropUndefined g ->
  (forall d s o w, _read f d s o w = _read g d s o w) ->
  forall source w, Format_read f source w = Format_read g source w.
Proof.
  intros Hc Hd Hr source w. unfold Format_read, try_catch, bind. rewrite Hc, Hd.
  destruct (negb (truthy source)); [reflexivity|].
  destruct (new_instance (_cl g) w) as [[inst|e] w0]; [|reflexivity].
  now rewrite Hr.
Qed.

Lemma Format_write_ext f g :
  _mappers f = _mappers g -> dropUndefined f = dropUndefined g ->
  forall model w, Format_write f model w = Format_write g model w.
Proof. intros Hm Hd model w. unfold Format_write. now rewrite Hm, Hd. Qed.

Lemma constructed_like `{Realm} f k cl ms g :
  Configured f -> _cl f = cl -> _mappers f = ms ->
  Format_constructor k cl ms = Return g ->
  (forall source w, Format_read g source w = Format_read (set_dropUndefined f true) source w) /\
  (forall model w, Format_write g model w = Format_write (set_dropUndefined f true) model w).
Proof.
  intros Hf Hc Hm Hg. destruct (Configured_inv f Hf) as [_ Hrf].
  apply constructor_inv in Hg as (_ & _ & Hcg & Hmg & Hdg & Hrg). split.
  - apply Format_read_ext; simpl; [congruence | done |].
    intros d s o w. now rewrite Hrg, Hrf, Hm.
  - apply Format_write_ext; simpl; [congruence | done].
Qed.

(** X3.  [readonly] and [writeonly] build a new format from the model class and
    the mappers only.  Whatever the class and the [dropUndefined] flag of
    the receiver, the [read] of [f.readonly(silent)] is [Format.read] on the
    receiver's mappers with [dropUndefined] back to [true], and the [write]
    of [f.writeonly(silent)] is [Format.write] likewise: the flag is not
    inherited. *)
Theorem restricted_format_resets_dropUndefined `{Realm} (f : Format) (silent : option bool)
    (fr fw : Format) :
  Configured f ->
  Format_readonly f silent = Return fr ->
  Format_writeonly f silent = Return fw ->
  dropUndefined fr = true /\ dropUndefined fw = true /\
  (forall source w,
      read_of fr source w = Format_read (set_dropUndefined f true) source w) /\
  (forall model w,
      write_of fw model w = Format_write (set_dropUndefined f true) model w).
Proof.
  intros Hf Hr Hw. unfold Format_readonly in Hr. unfold Format_writeonly in Hw.
  destruct (constructed_like f _ _ _ fr Hf eq_refl eq_refl Hr) as [Rr _].
  destruct (constructed_like f _ _ _ fw Hf eq_refl eq_refl Hw) as [_ Ww].
  apply constructor_inv in Hr as (_ & Kr & _ & _ & Dr & _).
  apply constructor_inv in Hw as (_ & Kw & _ & _ & Dw & _).
  repeat split; try done.
  - intros source w. unfold read_of. rewrite Kr. apply Rr.
  - intros model w. unfold write_of. rewrite Kw. apply Ww.
Qed.

Lemma restricted_format_resets_dropUndefined_witness :
  Format_read keeping_format empty_object world0
  = (Return (VObj (Some "Plain") {[ "a" := VUndefined ]}), world0) /\
  read_of readonly_format empty_object world0 = (Return (VObj (Some "Plain") ∅), world0).
Proof.
  split; [reflexivity|].
  destruct (restricted_format_resets_dropUndefined keeping_format None
              readonly_format writeonly_format
              (Configured_flag _ false (Format_of_Configured _ _ _ _)) eq_refl eq_refl)
    as (_ & _ & Hr & _).
  rewrite Hr. reflexivity.
Defined.

(** X4.  Restrictions do not add up: the format [f.readonly(s1).writeonly(s2)]
    writes again, as [Format.write] does on the mappers of [f], and so does
    [f.readonly(s1).extend(C, ...ms)] on its longer list; only the method
    replaced last stays replaced. *)
Theorem restrictions_do_not_accumulate `{Realm} (f : Format) (s1 s2 : option bool) (fr fw : Format) :
  Configured f ->
  Format_readonly f s1 = Return fr ->
  Format_writeonly fr s2 = Return fw ->
  (forall model w,
      write_of fw model w = Format_write (set_dropUndefined f true) model w) /\
  (forall C ms fe,
      Format_extend fr (Some C) ms = Return fe ->
      fclass fe = Format_ /\ write_of fe = Format_write fe /\ read_of fe = Format_read fe).
Proof.
  intros Hf Hr Hw. unfold Format_readonly in Hr. unfold Format_writeonly in Hw.
  pose proof Hr as Ir. apply constructor_inv in Ir as (_ & _ & Cr & Mr & _). split.
  - rewrite Cr, Mr in Hw.
    destruct (constructed_like f _ _ _ fw Hf eq_refl eq_refl Hw) as [_ Ww].
    apply constructor_inv in Hw as (_ & Kw & _).
    intros model w. unfold write_of. rewrite Kw. apply Ww.
  - intros C ms fe He. unfold Format_extend in He.
    apply constructor_inv in He as (_ & Ke & _).
    unfold write_of, read_of. now rewrite Ke.
Qed.

Lemma restrictions_do_not_accumulate_witness :
  write_of readonly_format ab_object world0
  = (Return VUndefined, World [ConsoleError "This is a read only writer."] VNull) /\
  write_of writeonly_format ab_object world0
  = (Return (VObj None {[ "a" := VStr "x" ]}), world0).
Proof.
  split; [reflexivity|].
  destruct (restrictions_do_not_accumulate plain_format None None readonly_format
              writeonly_format (Format_of_Configured _ _ _ _) eq_refl eq_refl) as [Hw _].
  rewrite Hw. reflexivity.
Defined.

(** X5.  [extend] fails exactly when the class is missing (the [invariant]); on a
    configured format it succeeds for every class and every list of extra
    mappers, the empty one included. *)
Theorem Format_extend_fails_iff_no_class `{Realm} (f : Format) (cl : option Class) (ms : list Mapper) :
  Configured f ->
  (cl = None ->
   Format_extend f cl ms
   = Throw (VObj (Some "Error")
              {[ "message" := VStr "Format.extend should be called with a valid class" ]})) /\
  ((exists f', Format_extend f cl ms = Return f') <-> cl <> None).
Proof.
  intros Hf. destruct (Configured_inv f Hf) as [Hne _]. split; [now intros ->|].
  destruct cl as [C|]; simpl.
  - split; [done|]. intros _. apply constructor_nonempty.
    destruct ms; [done | discriminate].
  - split; [now intros [f' ?] | done].
Qed.

Lemma Format_extend_fails_iff_no_class_witness :
  (exists f', Format_extend plain_format (Some Sub) [] = Return f') /\
  Format_extend plain_format None [json "b"]
  = Throw (VObj (Some "Error")
             {[ "message" := VStr "Format.extend should be called with a valid class" ]}).
Proof.
  split.
  - apply (Format_extend_fails_iff_no_class plain_format (Some Sub) []
             (Format_of_Configured _ _ _ _)). discriminate.
  - now apply (Format_extend_fails_iff_no_class plain_format None [json "b"]
                 (Format_of_Configured _ _ _ _)).
Defined.

(** ** Mapper refinements *)

Lemma transform_write this r w g model w0 v w1 :
  mclass this <> NumberMapper_ ->
  write this = Some g ->
  g model w0 = (Return v, w1) ->
  call (write (transform this r w)) model w0 = w v w1.
Proof.
  intros Hc Hw Hg. unfold transform.
  destruct (mclass this); try done; simpl; unfold call; rewrite Hw;
    now rewrite (bind_Return _ _ _ _ _ Hg).
Qed.

(** X6.  [boolean()] always reads a boolean: [true] exactly when the value it is
    given is [true], the string ['true'], the string ['1'] or the number 1,
    [false] for everything else ([undefined], [null], other strings and
    numbers, objects, arrays, functions). *)
Theorem boolean_reads_truth_table (m : Mapper) (source : value) (w w' : world) (v : value) :
  read m source w = (Return v, w') ->
  exists b,
    read (Mapper_boolean m) source w = (Return (VBool b), w') /\
    (b = true <->
     v = VBool true \/ v = VStr "true" \/ v = VStr "1" \/
     exists q, v = VNum (Fin q) /\ (q == 1)%Q).
Proof.
  intros Hv. unfold Mapper_boolean. rewrite (transform_read _ _ _ _ _ _ _ Hv).
  unfold lift, ret. eexists. split; [reflexivity|].
  destruct v as [| |b|n|s|l|c ps|fn|c]; simpl.
  - split; [done|]. intros [?|[?|[?|(q & ? & _)]]]; discriminate.
  - split; [done|]. intros [?|[?|[?|(q & ? & _)]]]; discriminate.
  - destruct b; simpl.
    + split; [now left | done].
    + split; [done|]. intros [?|[?|[?|(q & ? & _)]]]; discriminate.
  - destruct n as [|s| |q]; simpl.
    + split; [done|]. intros [?|[?|[?|(q & ? & _)]]]; discriminate.
    + split; [done|]. intros [?|[?|[?|(q & ? & _)]]]; discriminate.
    + split; [done|]. intros [?|[?|[?|(q & ? & _)]]]; discriminate.
    + split.
      * intros E. right; right; right. exists q. split; [done|]. now apply Qeq_bool_iff.
      * intros [?|[?|[?|(q' & [= <-] & E)]]]; try discriminate. now apply Qeq_bool_iff.
  - rewrite orb_false_r. split.
    + intros E. apply orb_true_iff in E as [E|E]; apply String.eqb_eq in E; subst; auto.
    + intros [?|[[= ->]|[[= ->]|(q & ? & _)]]]; try discriminate; reflexivity.
  - split; [done|]. intros [?|[?|[?|(q & ? & _)]]]; discriminate.
  - split; [done|]. intros [?|[?|[?|(q & ? & _)]]]; discriminate.
  - split; [done|]. intros [?|[?|[?|(q & ? & _)]]]; discriminate.
  - split; [done|]. intros [?|[?|[?|(q & ? & _)]]]; discriminate.
Qed.

Lemma boolean_reads_truth_table_witness :
  exists b,
    read (boolean "numberBoolean") (VObj None {[ "numberBoolean" := VStr "0" ]}) world0
    = (Return (VBool b), world0) /\
    (b = true <->
     VStr "0" = VBool true \/ VStr "0" = VStr "true" \/ VStr "0" = VStr "1" \/
     exists q, VStr "0" = VNum (Fin q) /\ (q == 1)%Q).
Proof.
  apply (boolean_reads_truth_table (json "numberBoolean")
           (VObj None {[ "numberBoolean" := VStr "0" ]}) world0 world0 (VStr "0")).
  reflexivity.
Defined.

Lemma Mapper_number_read_inv `{Host} m source w v w' :
  read (Mapper_number m) source w = (Return v, w') ->
  exists x, read m source w = (Return x, w') /\ v = VNum (ToNumber x).
Proof.
  simpl. intros E. apply bind_inv in E as (x & w1 & Hx & E).
  unfold ret in E. injection E as <- <-. eauto.
Qed.

(** X7.  A field mapped with [number()] is never dropped: what [number()] reads
    is a number, never [undefined], so after a [read] that returns an
    instance the target field of the last such mapper holds a number, in a
    format whose targets are plain fields of its class.  When the entry
    mapper is [json`x`] and the source object neither has nor inherits an
    [x], that number is [NaN]. *)
Theorem number_field_always_assigned `{Host} `{Realm} (f : Format) (pre : list Mapper) (m : Mapper)
    (post : list Mapper) :
  Configured f ->
  plain_targets f ->
  _mappers f = pre ++ Mapper_number m :: post ->
  Forall (fun m' => modelName m' <> modelName m) post ->
  forall source w cls out w',
    read_of f source w = (Return (VObj cls out), w') ->
    (exists n, out !! modelName m = Some (VNum n)) /\
    (forall x c fields,
        m = json x -> source = VObj c fields -> fields !! x = None -> chain c x = Absent ->
        out !! x = Some (VNum NaN)).
Proof.
  intros Hf Hplain Hms Hpost source w cls out w' E. apply read_of_object in E.
  destruct (read_last_assignment_plain f _ _ _ _ _ _ _ _ Hf Hplain Hms Hpost E)
    as (inst & w0 & out1 & w1 & v & w2 & _ & _ & Hv & _ & Hout).
  apply Mapper_number_read_inv in Hv as (x0 & Hx0 & ->).
  simpl in Hout. rewrite andb_false_r in Hout. split; [eauto|].
  intros x c fields -> -> Hx Hch. simpl in Hx0, Hout.
  rewrite Hx, Hch in Hx0. unfold ret in Hx0. injection Hx0 as <- <-. exact Hout.
Qed.

Lemma number_field_always_assigned_witness :
  exists out,
    read_of number_format empty_literal world0 = (Return (VObj (Some "Plain") out), world0) /\
    out !! "n" = Some (VNum NaN).
Proof.
  exists {[ "n" := VNum NaN ]}. split; [reflexivity|].
  destruct (@number_field_always_assigned no_parsing test_realm number_format [] (json "n") []
              (Format_of_Configured _ _ _ _)) with
    (source := empty_literal) (w := world0) (cls := Some "Plain")
    (out := ({[ "n" := VNum NaN ]} : props)) (w' := world0) as [_ Hnan].
  - intros c [= <-]. repeat constructor.
  - reflexivity.
  - constructor.
  - reflexivity.
  - apply (Hnan "n" (Some "Object") ∅); reflexivity.
Defined.

(** X8.  [min(a).max(b)] clamps: for bounds [a <= b] with [a] truthy (not 0, -0
    or [NaN]) and [b] not [NaN], whatever number the mapper reads, the
    chain reads a number between [a] and [b]. *)
Theorem min_max_within_bounds `{Host} (nm : Mapper) (a b : number)
    (source : value) (w w' : world) (n : number) :
  mclass nm = NumberMapper_ ->
  read nm source w = (Return (VNum n), w') ->
  truthy (VNum a) = true ->
  is_NaN b = false ->
  num_leb a b = true ->
  exists r,
    read (NumberMapper_max (NumberMapper_min nm a) b) source w = (Return (VNum r), w') /\
    num_leb a r = true /\ num_leb r b = true.
Proof.
  intros _ Hn Ha Hb Hab. pose proof (truthy_number_not_NaN a Ha) as Na.
  assert (exists x, read (NumberMapper_min nm a) source w = (Return (VNum x), w') /\
                    truthy (VNum x) = true /\ num_leb a x = true) as (x & Hx & Tx & Ax).
  { unfold NumberMapper_min. rewrite (transform_read _ _ _ _ _ _ _ Hn). unfold lift, ret.
    destruct (truthy (VNum n)) eqn:Tn.
    - pose proof (truthy_number_not_NaN n Tn) as Nn.
      destruct (Math_max_greater n a Nn Na) as (Hor & _ & Hle).
      exists (Math_max n a). simpl. split; [reflexivity|]. split; [|exact Hle].
      destruct Hor as [-> | ->]; assumption.
    - exists a. split; [reflexivity|]. split; [exact Ha|]. now apply num_leb_refl. }
  pose proof (truthy_number_not_NaN x Tx) as Nx.
  destruct (Math_min_lesser x b Nx Hb) as (Hor & _ & Hle).
  exists (Math_min x b). unfold NumberMapper_max.
  rewrite (transform_read _ _ _ _ _ _ _ Hx). unfold lift, ret. rewrite Tx. simpl.
  split; [reflexivity|]. split; [|exact Hle].
  destruct Hor as [-> | ->]; assumption.
Qed.

Lemma min_max_within_bounds_witness :
  exists r,
    read (@NumberMapper_max no_parsing (@NumberMapper_min no_parsing (@number_ no_parsing test_realm "b")
                                          (Fin 5)) (Fin 10)) b14 world0
    = (Return (VNum r), world0) /\
    num_leb (Fin 5) r = true /\ num_leb r (Fin 10) = true.
Proof.
  apply (@min_max_within_bounds no_parsing (@number_ no_parsing test_realm "b") (Fin 5) (Fin 10) b14
           world0 world0 (Fin 14)); reflexivity.
Defined.

(** X9.  A falsy lower bound defeats the clamp: with [a] equal to 0, -0 or
    [NaN], [min(a).max(b)] reads every falsy value (0, a missing field read
    as [NaN], ...) as the upper bound [b], since [min] hands the falsy [a]
    to [max], which replaces it. *)
Theorem falsy_lower_bound_reads_upper_bound `{Host} (nm : Mapper) (a b : number)
    (source : value) (w w' : world) (v : value) :
  mclass nm = NumberMapper_ ->
  read nm source w = (Return v, w') ->
  truthy v = false ->
  truthy (VNum a) = false ->
  read (NumberMapper_min nm a) source w = (Return (VNum a), w') /\
  read (NumberMapper_max (NumberMapper_min nm a) b) source w = (Return (VNum b), w').
Proof.
  intros _ Hv Tv Ta.
  assert (read (NumberMapper_min nm a) source w = (Return (VNum a), w')) as Hmin.
  { unfold NumberMapper_min. rewrite (transform_read _ _ _ _ _ _ _ Hv).
    unfold lift. now rewrite Tv. }
  split; [exact Hmin|].
  unfold NumberMapper_max. rewrite (transform_read _ _ _ _ _ _ _ Hmin).
  unfold lift. now rewrite Ta.
Qed.

Lemma falsy_lower_bound_reads_upper_bound_witness :
  read (@NumberMapper_max no_parsing (@NumberMapper_min no_parsing (@number_ no_parsing test_realm "b")
                                        (Fin 0)) (Fin 10)) b0 world0
  = (Return (VNum (Fin 10)), world0).
Proof.
  apply (@falsy_lower_bound_reads_upper_bound no_parsing (@number_ no_parsing test_realm "b") (Fin 0)
           (Fin 10) b0 world0 world0 (VNum (Fin 0))); reflexivity.
Defined.

(** X10.  [defaultsTo(d)] reads a truthy value unchanged and replaces every falsy
    one (also 0, [false] and the empty string) by [d], so with a truthy [d]
    it never reads a falsy value.  On a mapper other than a [NumberMapper]
    the write direction does the same to what the write function returns;
    on a [NumberMapper] the write function stays as it was. *)
Theorem defaultsTo_replaces_falsy (m : Mapper) (d : value) :
  (forall source w v w',
      read m source w = (Return v, w') ->
      read (Mapper_defaultsTo m d) source w = (Return (if truthy v then v else d), w') /\
      (truthy d = true -> truthy (if truthy v then v else d) = true)) /\
  (forall g model w v w',
      mclass m <> NumberMapper_ ->
      write m = Some g ->
      g model w = (Return v, w') ->
      call (write (Mapper_defaultsTo m d)) model w
      = (Return (if truthy v then v else d), w')) /\
  (mclass m = NumberMapper_ -> write (Mapper_defaultsTo m d) = write m).
Proof.
  split; [|split].
  - intros source w v w' Hv. unfold Mapper_defaultsTo.
    rewrite (transform_read _ _ _ _ _ _ _ Hv). split; [reflexivity|].
    intros Hd. now destruct (truthy v) eqn:Tv.
  - intros g model w v w' Hc Hw Hg. unfold Mapper_defaultsTo.
    now rewrite (transform_write _ _ _ _ _ _ _ _ Hc Hw Hg).
  - intros Hc. unfold Mapper_defaultsTo. now rewrite transform_NumberMapper.
Qed.

Lemma defaultsTo_replaces_falsy_witness :
  read (Mapper_defaultsTo (json "a") (VStr "d")) (VObj None {[ "a" := VNum (Fin 0) ]}) world0
  = (Return (VStr "d"), world0) /\
  call (write (Mapper_defaultsTo (json "a") (VStr "d"))) (VObj None {[ "a" := VStr "" ]}) world0
  = (Return (VStr "d"), world0).
Proof.
  destruct (defaultsTo_replaces_falsy (json "a") (VStr "d")) as (Hr & Hw & _). split.
  - apply (Hr (VObj None {[ "a" := VNum (Fin 0) ]}) world0 (VNum (Fin 0)) world0). reflexivity.
  - apply (Hw (get "a") (VObj None {[ "a" := VStr "" ]}) world0 (VStr "") world0);
      [discriminate | reflexivity | reflexivity].
Defined.

(** ** Mappers that take no part in one direction *)

Lemma forEach_skip {A S} (body : A -> S -> M S) pre x post :
  (forall s w, body x s w = (Return s, w)) ->
  forall s w, forEach body (pre ++ x :: post) s w = forEach body (pre ++ post) s w.
Proof.
  intros Hx s w. rewrite !forEach_app. unfold bind.
  destruct (forEach body pre s w) as [[s1|e] w1]; [|reflexivity].
  simpl. unfold bind. now rewrite Hx.
Qed.

Lemma forEach_throws {A S} (body : A -> S -> M S) x l :
  In x l ->
  (forall s w, exists e, body x s w = (Throw e, w)) ->
  forall s w, exists e w', forEach body l s w = (Throw e, w').
Proof.
  intros Hin Hx. induction l as [|y l IH]; [done|]. intros s w. simpl. unfold bind.
  destruct (body y s w) as [[s1|e] w1] eqn:Hy; [|eauto].
  destruct Hin as [->|Hin].
  - destruct (Hx s w) as [e He]. congruence.
  - now apply IH.
Qed.

(** X11.  A mapper made by [readonly()] takes no part in [write] while
    [dropUndefined] is set: a format writes the same with or without it,
    wherever it stands in the list.  With [dropUndefined] off it assigns
    [undefined] under its source name. *)
Theorem readonly_mapper_not_written (f f' : Format) (pre : list Mapper) (m : Mapper)
    (post : list Mapper) :
  _mappers f' = pre ++ Mapper_readonly m :: post ->
  _mappers f = pre ++ post ->
  (dropUndefined f = true -> dropUndefined f' = true ->
   forall model w, Format_write f' model w = Format_write f model w) /\
  (forall model out w,
      mapper_writer false model (Mapper_readonly m) out w
      = (Return (<[name m := VUndefined]> out), w)).
Proof.
  intros Hms' Hms. split; [|reflexivity].
  intros Hd Hd' model w. unfold Format_write. rewrite Hms', Hms, Hd, Hd'.
  destruct (negb (truthy model)); [reflexivity|]. unfold try_catch, bind.
  rewrite !List.filter_app. simpl. now rewrite forEach_skip.
Qed.

(** X12.  A mapper made by [writeonly()] takes no part in [read] while
    [dropUndefined] is set: two configured formats for the same class read
    the same with or without it. *)
Theorem writeonly_mapper_not_read `{Realm} (f f' : Format) (pre : list Mapper) (m : Mapper)
    (post : list Mapper) :
  Configured f -> Configured f' ->
  _cl f' = _cl f ->
  _mappers f' = pre ++ Mapper_writeonly m :: post ->
  _mappers f = pre ++ post ->
  dropUndefined f = true -> dropUndefined f' = true ->
  forall source w, Format_read f' source w = Format_read f source w.
Proof.
  intros Hf Hf' Hcl Hms' Hms Hd Hd' source w.
  destruct (Configured_inv f Hf) as [_ Hr]. destruct (Configured_inv f' Hf') as [_ Hr'].
  unfold Format_read, try_catch, bind. rewrite Hcl, Hd, Hd'.
  destruct (negb (truthy source)); [reflexivity|].
  destruct (new_instance (_cl f) w) as [[inst|e] w0]; [|reflexivity].
  rewrite Hr, Hr', Hms, Hms'. unfold run_readers. now rewrite forEach_skip.
Qed.

Lemma readonly_mapper_not_written_witness :
  Format_write a_readonly_b_format ab_object world0 = Format_write plain_format ab_object world0.
Proof.
  apply (readonly_mapper_not_written plain_format a_readonly_b_format [json "a"] (json "b") []);
    reflexivity.
Defined.

Lemma writeonly_mapper_not_read_witness :
  Format_read a_writeonly_b_format ab_object world0 = Format_read plain_format ab_object world0.
Proof.
  apply (writeonly_mapper_not_read plain_format a_writeonly_b_format [json "a"] (json "b") []);
    try reflexivity; apply Format_of_Configured.
Defined.

(** X13.  A mapper without write function (as [rawTransform] called with a reader
    only makes) is filtered out of [write]: a format writes the same with or
    without it, whatever [dropUndefined] is. *)
Theorem mapper_without_write_not_written (f f' : Format) (pre : list Mapper) (m : Mapper)
    (post : list Mapper) :
  write m = None ->
  _mappers f' = pre ++ m :: post ->
  _mappers f = pre ++ post ->
  dropUndefined f' = dropUndefined f ->
  forall model w, Format_write f' model w = Format_write f model w.
Proof.
  intros Hw Hms' Hms Hd model w. unfold Format_write. rewrite Hms', Hms, Hd.
  rewrite !List.filter_app. simpl. unfold has_write at 2. now rewrite Hw.
Qed.

Lemma mapper_without_write_not_written_witness :
  Format_write a_writeless_b_format ab_object world0 = Format_write plain_format ab_object world0.
Proof.
  apply (mapper_without_write_not_written plain_format a_writeless_b_format [json "a"]
           writeless_b []); reflexivity.
Defined.

(** X14.  Refining a mapper without write function breaks [write] for the whole
    format: [transform] (and so [boolean], [defaultsTo], [arrayOf], ...) on
    a mapper other than a [NumberMapper] wraps the missing function in a new
    one, which is no longer filtered out and throws a [TypeError] when
    called.  Every [write] of a truthy model through a format that contains
    such a mapper is caught, logged and returns [undefined]. *)
Theorem transform_without_write_breaks_write (f : Format) (m : Mapper) (r w0 : jsfun) :
  write m = None ->
  mclass m <> NumberMapper_ ->
  In (transform m r w0) (_mappers f) ->
  forall model w,
    truthy model = true ->
    exists e w',
      Format_write f model w
      = (Return VUndefined, print (ConsoleLog "A format write completely exploded." e) w').
Proof.
  intros Hw Hc Hin model w Ht.
  assert (has_write (transform m r w0) = true) as Hhas
    by (unfold transform; now destruct (mclass m)).
  assert (forall out w1, exists e,
             mapper_writer (dropUndefined f) model (transform m r w0) out w1 = (Throw e, w1))
    as Hthrow.
  { intros out w1. unfold mapper_writer, transform.
    destruct (mclass m); try done; simpl; rewrite Hw; unfold bind, call, throw; eauto. }
  destruct (forEach_throws (mapper_writer (dropUndefined f) model) (transform m r w0)
              (List.filter has_write (_mappers f))
              ltac:(apply filter_In; split; assumption) Hthrow ∅ w) as (e & w' & Hrun).
  exists e, w'. now apply Format_write_caught.
Qed.

Lemma transform_without_write_breaks_write_witness :
  exists e w',
    Format_write a_broken_b_format ab_object world0
    = (Return VUndefined, print (ConsoleLog "A format write completely exploded." e) w').
Proof.
  apply (transform_without_write_breaks_write a_broken_b_format writeless_b
           (lift (fun b => VBool (negb (is_undefined b) &&
                                  (strict_equals b (VBool true) || strict_equals b (VStr "true") ||
                                   strict_equals b (VStr "1") || strict_equals b (VNum (Fin 1))))))
           (lift (fun b => b)));
    [reflexivity | discriminate | right; left; reflexivity | reflexivity].
Defined.

(** ** Renamed and nested fields *)

(** X15.  Round trip through a renamed field.  Let a configured format whose
    targets are plain fields of its class contain [json`x`.to('y')], with no
    later mapper that targets the model field [y] and no later mapper with a
    write function that has the source name [x].  For every source object
    that holds, as an own property, a value other than [undefined] under
    [x]: when [read] returns an instance, that value is under [y] in the
    instance, and when [write] of the instance returns an object, the value
    is back under [x]. *)
Theorem renamed_field_round_trip `{Realm} (f : Format) (x y : string) (pre post : list Mapper) :
  Configured f ->
  plain_targets f ->
  _mappers f = pre ++ JsonValue_to (json x) y :: post ->
  Forall (fun m' => modelName m' <> y) post ->
  Forall (fun m' => name m' <> x) (List.filter has_write post) ->
  forall cls fields v w mcls model w1,
    fields !! x = Some v ->
    v <> VUndefined ->
    read_of f (VObj cls fields) w = (Return (VObj mcls model), w1) ->
    model !! y = Some v /\
    forall ocls out w2,
      write_of f (VObj mcls model) w1 = (Return (VObj ocls out), w2) ->
      out !! x = Some v.
Proof.
  intros Hc Hplain Hms Hpm Hpn cls fields v w mcls model w1 Hx Hv Hread.
  pose proof (is_undefined_false v Hv) as Hu.
  apply read_of_object in Hread.
  destruct (read_last_assignment_plain f _ _ _ _ _ _ _ _ Hc Hplain Hms Hpm Hread)
    as (inst & w0 & out1 & w3 & v0 & w4 & _ & _ & Hr & _ & Hmodel).
  simpl in Hr, Hmodel. rewrite Hx in Hr. unfold ret in Hr.
  injection Hr as <- <-. rewrite Hu, andb_false_r in Hmodel.
  split; [exact Hmodel|].
  intros ocls out w2 Hwrite. apply write_of_object in Hwrite.
  destruct (write_last_assignment f _ _ _ (get y) _ _ _ _ _ Hms eq_refl Hpn Hwrite)
    as (out2 & w5 & v1 & w6 & _ & Hg & Hout).
  simpl in Hg, Hout. rewrite Hmodel in Hg. unfold ret in Hg.
  injection Hg as <- <-. rewrite Hu, andb_false_r in Hout.
  destruct Hout as (v' & w7 & Hg' & Hout).
  rewrite Hmodel in Hg'. unfold ret in Hg'. injection Hg' as <- <-.
  exact Hout.
Qed.

Lemma renamed_field_round_trip_witness :
  ({[ "anotherName" := VStr "mapped" ]} : props) !! "anotherName" = Some (VStr "mapped") /\
  exists out,
    write_of renaming_format (VObj (Some "Plain") {[ "anotherName" := VStr "mapped" ]}) world0
    = (Return (VObj None out), world0) /\
    out !! "nameMapping" = Some (VStr "mapped").
Proof.
  destruct (renamed_field_round_trip renaming_format "nameMapping" "anotherName" [] []
              (Format_of_Configured _ _ _ _)) with
    (cls := Some "Object") (fields := ({[ "nameMapping" := VStr "mapped" ]} : props))
    (v := VStr "mapped") (w := world0) (mcls := Some "Plain")
    (model := ({[ "anotherName" := VStr "mapped" ]} : props)) (w1 := world0)
    as [Hm Hw].
  - intros c [= <-]. repeat constructor.
  - reflexivity.
  - constructor.
  - constructor.
  - reflexivity.
  - discriminate.
  - reflexivity.
  - split; [exact Hm|]. exists {[ "nameMapping" := VStr "mapped" ]}.
    split; [reflexivity|]. apply (Hw None _ world0). reflexivity.
Defined.

Lemma read_of_returns f source w :
  fclass f <> WriteOnlyFormat false ->
  exists r w', read_of f source w = (Return r, w').
Proof.
  intros Hk. unfold read_of. destruct (fclass f) as [|[|]|s]; try done;
    try apply Format_read_returns.
  unfold WriteOnly_read, bind, console_error, ret. simpl. eauto.
Qed.




(** A name that is an own property, or that the prototype chain does not
    hold, reads as the own property. *)
Lemma get_own `{Realm} x cls fields w :
  is_Some (fields !! x) \/ chain cls x = Absent ->
  get x (VObj cls fields) w = (Return (prop fields x), w).
Proof.
  unfold get, prop. intros [[v ->]| ->]; [reflexivity|].
  now destruct (fields !! x).
Qed.

(** X17.  [node`x`.is(f)] on a source object whose [x] is missing (neither an
    own nor an inherited property) or an own property that holds a falsy
    value reads [null], not [undefined], when [f] is a format with the
    [read] of [Format]: a plain field [x] of the model is assigned [null]
    even while [dropUndefined] is set. *)
Theorem node_is_absent_reads_null `{Realm} (x : string) (nested : Format) (cls : option string)
    (fields : props) (w : world) :
  (forall silent, fclass nested <> WriteOnlyFormat silent) ->
  truthy (prop fields x) = false ->
  is_Some (fields !! x) \/ chain cls x = Absent ->
  read (JsonNode_is (node x) (as_abstract nested)) (VObj cls fields) w = (Return VNull, w) /\
  forall drop out,
    data_slot out.1 x = true ->
    mapper_reader (JsonNode_is (node x) (as_abstract nested)) drop (VObj cls fields) out w
    = (Return (out.1, <[x := VNull]> out.2), w).
Proof.
  intros Hk Hx Hown.
  assert (read (JsonNode_is (node x) (as_abstract nested)) (VObj cls fields) w
          = (Return VNull, w)) as Hr.
  { unfold JsonNode_is.
    rewrite (transform_read (node x) _ _ (VObj cls fields) w (prop fields x) w
               (get_own _ _ _ _ Hown)).
    simpl. rewrite read_of_unrestricted by done. now apply Format_read_falsy. }
  split; [exact Hr|]. intros drop out Hd. unfold mapper_reader.
  rewrite (bind_Return _ _ _ _ _ Hr). rewrite andb_false_r.
  change (modelName (JsonNode_is (node x) (as_abstract nested))) with x.
  now apply assign_data.
Qed.

Lemma node_is_absent_reads_null_witness :
  read (JsonNode_is (node "nullFoo") (as_abstract plain_format)) empty_literal world0
  = (Return VNull, world0) /\
  mapper_reader (JsonNode_is (node "nullFoo") (as_abstract plain_format)) true empty_literal
                (Some "Test", ∅) world0
  = (Return (Some "Test", {[ "nullFoo" := VNull ]}), world0).
Proof.
  destruct (node_is_absent_reads_null "nullFoo" plain_format (Some "Object") (∅ : props) world0)
    as [Hr Hm].
  - intros s; discriminate.
  - reflexivity.
  - right. reflexivity.
  - split; [exact Hr|]. apply (Hm true (Some "Test", ∅)). reflexivity.
Defined.

(** ** What a read and a write put into their result *)

Lemma run_writers_keys drop model ms :
  forall out w out' w',
    run_writers drop model ms out w = (Return out', w') ->
    forall k, is_Some (out' !! k) -> is_Some (out !! k) \/ exists m, In m ms /\ name m = k.
Proof.
  induction ms as [|m ms IH]; intros out w out' w' E k Hk; simpl in E.
  - unfold ret in E. injection E as <- <-. now left.
  - apply bind_inv in E as (out1 & w1 & E1 & E2).
    apply mapper_writer_inv in E1 as (v & w2 & _ & E1).
    destruct (IH _ _ _ _ E2 k Hk) as [H1 | (m' & Hin & Hn)];
      [|right; exists m'; split; [now right | done]].
    destruct (drop && is_undefined v).
    + destruct E1 as [-> _]. now left.
    + destruct E1 as (v' & _ & ->). destruct (decide (name m = k)) as [Hn|Hn].
      * right. exists m. split; [now left | done].
      * left. now rewrite lookup_insert_ne in H1.
Qed.

(** X18.  What [write] returns is a plain object (of no class) whose fields are
    all source names of mappers of the format that have a write function:
    nothing of the model leaks into it under another name. *)
Theorem written_fields_are_mapper_names (f : Format) (model : value) (w : world)
    (cls : option string) (out : props) (w' : world) :
  write_of f model w = (Return (VObj cls out), w') ->
  cls = None /\
  forall k, is_Some (out !! k) ->
            exists m, In m (_mappers f) /\ name m = k /\ has_write m = true.
Proof.
  intros E. apply write_of_object in E. apply Format_write_object in E as (_ & -> & Hrun).
  split; [reflexivity|]. intros k Hk.
  destruct (run_writers_keys _ _ _ _ _ _ _ Hrun k Hk) as [H0 | (m & Hin & Hn)].
  - rewrite lookup_empty in H0. now destruct H0.
  - apply filter_In in Hin as [Hin Hw]. exists m. auto.
Qed.

Lemma written_fields_are_mapper_names_witness :
  exists m, In m (_mappers ab_format) /\ name m = "a" /\ has_write m = true.
Proof.
  destruct (written_fields_are_mapper_names ab_format
              (VObj (Some "Plain") {[ "a" := VStr "x"; "b" := VStr "y" ]}) world0 None
              ({[ "a" := VStr "x"; "b" := VStr "y" ]} : props) world0) as [_ Hk];
    [reflexivity|].
  apply Hk. vm_compute. eauto.
Defined.

Lemma run_readers_keys `{Realm} drop source ms :
  forall out w out' w',
    Forall (fun m => data_slot out.1 (modelName m) = true) ms ->
    run_readers drop source ms out w = (Return out', w') ->
    forall k, is_Some (out'.2 !! k) ->
              is_Some (out.2 !! k) \/ exists m, In m ms /\ modelName m = k.
Proof.
  unfold run_readers.
  induction ms as [|m ms IH]; intros out w out' w' Hd E k Hk; simpl in E.
  - unfold ret in E. injection E as <- <-. now left.
  - apply bind_inv in E as (out1 & w1 & E1 & E2).
    inversion Hd as [|? ? Hdm Hdms]; subst.
    apply mapper_reader_data in E1 as (v & _ & ->); [|exact Hdm].
    destruct (drop && is_undefined v).
    + destruct (IH _ _ _ _ Hdms E2 k Hk) as [H1 | (m' & Hin & Hn)]; [now left|].
      right; exists m'; split; [now right | done].
    + destruct (IH (out.1, <[modelName m := v]> out.2) _ _ _ Hdms E2 k Hk)
        as [H1 | (m' & Hin & Hn)]; [|right; exists m'; split; [now right | done]].
      simpl in H1. destruct (decide (modelName m = k)) as [Hn|Hn].
      * right. exists m. split; [now left | done].
      * left. now rewrite lookup_insert_ne in H1.
Qed.

Lemma run_readers_undefined `{Realm} source ms :
  forall out w out' w',
    Forall (fun m => data_slot out.1 (modelName m) = true) ms ->
    run_readers true source ms out w = (Return out', w') ->
    forall k, out'.2 !! k = Some VUndefined -> out.2 !! k = Some VUndefined.
Proof.
  unfold run_readers.
  induction ms as [|m ms IH]; intros out w out' w' Hd E k Hk; simpl in E.
  - unfold ret in E. now injection E as <- <-.
  - apply bind_inv in E as (out1 & w1 & E1 & E2).
    inversion Hd as [|? ? Hdm Hdms]; subst.
    apply mapper_reader_data in E1 as (v & _ & ->); [|exact Hdm].
    simpl in E2. destruct (is_undefined v) eqn:Hu.
    + exact (IH _ _ _ _ Hdms E2 k Hk).
    + pose proof (IH (out.1, <[modelName m := v]> out.2) _ _ _ Hdms E2 k Hk) as H1.
      simpl in H1. destruct (decide (modelName m = k)) as [Hn|Hn].
      * subst k. rewrite lookup_insert_eq in H1. injection H1 as ->. discriminate.
      * now rewrite lookup_insert_ne in H1.
Qed.

(** X19.  For a format whose targets are plain fields of its class, the
    instance [read] returns is an instance of that class; each of its
    fields was set by the class constructor or is the target name of a
    mapper of the format; and while [dropUndefined] is set, a field that
    holds [undefined] held it already when the constructor returned: no
    mapper stores [undefined]. *)
Theorem read_fields_are_targets_or_initial `{Realm} (f : Format) (source : value) (w : world)
    (cls : option string) (out : props) (w' : world) :
  Configured f ->
  plain_targets f ->
  read_of f source w = (Return (VObj cls out), w') ->
  exists c inst w0,
    _cl f = Some c /\ cls = Some (class_name c) /\
    new_instance (_cl f) w = (Return inst, w0) /\ cls = inst.1 /\
    (forall k, is_Some (out !! k) ->
               is_Some (inst.2 !! k) \/ exists m, In m (_mappers f) /\ modelName m = k) /\
    (dropUndefined f = true ->
     forall k, out !! k = Some VUndefined -> inst.2 !! k = Some VUndefined).
Proof.
  intros Hf Hplain E. apply read_of_object in E.
  apply Format_read_object in E as (_ & inst & w0 & Hnew & Hrun); [|done].
  destruct (new_instance_class _ _ _ _ Hnew) as (c & Hcl & Hic).
  specialize (Hplain c Hcl). rewrite <- Hic in Hplain.
  pose proof (run_readers_class _ _ _ _ _ _ _ Hplain Hrun) as Hcls. simpl in Hcls.
  exists c, inst, w0. split; [done|]. split; [congruence|]. split; [done|].
  split; [done|]. split.
  - intros k Hk. now apply (run_readers_keys _ _ _ _ _ _ _ Hplain Hrun).
  - intros Hd k Hk. rewrite Hd in Hrun.
    now apply (run_readers_undefined _ _ _ _ _ _ Hplain Hrun).
Qed.

Lemma read_fields_are_targets_or_initial_witness :
  exists inst w0,
    new_instance (_cl ab_format) world0 = (Return inst, w0) /\ Some "Plain" = inst.1 /\
    (is_Some (inst.2 !! "a") \/ exists m, In m (_mappers ab_format) /\ modelName m = "a").
Proof.
  destruct (read_fields_are_targets_or_initial ab_format ab_object world0 (Some "Plain")
              ({[ "a" := VStr "x"; "b" := VStr "y" ]} : props) world0
              (Format_of_Configured _ _ _ _))
    as (c & inst & w0 & _ & _ & Hnew & Hcls & Hkeys & _).
  - intros c [= <-]. repeat constructor.
  - reflexivity.
  - exists inst, w0. split; [exact Hnew|]. split; [exact Hcls|].
    apply Hkeys. vm_compute. eauto.
Defined.

Lemma run_writers_pure_defined model ms :
  (forall m g, In m ms -> write m = Some g -> pure_fn g) ->
  forall out w out' w',
    run_writers true model ms out w = (Return out', w') ->
    (forall k, out !! k <> Some VUndefined) ->
    forall k, out' !! k <> Some VUndefined.
Proof.
  induction ms as [|m ms IH]; intros Hp out w out' w' E Hout k; simpl in E.
  - unfold ret in E. injection E as <- <-. apply Hout.
  - apply bind_inv in E as (out1 & w1 & E1 & E2).
    apply mapper_writer_inv in E1 as (v & w2 & Hv & E1).
    eapply (IH (fun m' g Hin => Hp m' g (or_intror Hin)) _ _ _ _ E2); clear k.
    intros k. simpl in E1. destruct (is_undefined v) eqn:Hu.
    + destruct E1 as [-> _]. apply Hout.
    + destruct E1 as (v' & Hv' & ->).
      destruct (write m) as [g|] eqn:Hw; [|discriminate].
      destruct (Hp m g (or_introl eq_refl) Hw) as [r Hr].
      unfold call in Hv, Hv'. rewrite Hr in Hv, Hv'.
      assert (v' = v) as -> by congruence.
      destruct (decide (name m = k)) as [Hn|Hn].
      * subst k. rewrite lookup_insert_eq. intros [= ->]. discriminate.
      * rewrite lookup_insert_ne by done. apply Hout.
Qed.

(** X20.  While [dropUndefined] is set and the write functions are pure, the
    object [write] returns has no field that holds [undefined]. *)
Theorem pure_write_has_no_undefined_field (f : Format) (model : value) (w : world)
    (cls : option string) (out : props) (w' : world) :
  dropUndefined f = true ->
  (forall m g, In m (_mappers f) -> write m = Some g -> pure_fn g) ->
  write_of f model w = (Return (VObj cls out), w') ->
  forall k, out !! k <> Some VUndefined.
Proof.
  intros Hd Hp E. apply write_of_object in E. apply Format_write_object in E as (_ & _ & Hrun).
  rewrite Hd in Hrun.
  eapply run_writers_pure_defined; [| exact Hrun | intros k; now rewrite lookup_empty].
  intros m g Hin. apply filter_In in Hin as [Hin _]. now apply Hp.
Qed.

Lemma pure_write_has_no_undefined_field_witness :
  ({[ "a" := VStr "x"; "b" := VStr "y" ]} : props) !! "a" <> Some VUndefined.
Proof.
  apply (pure_write_has_no_undefined_field ab_format
           (VObj (Some "Plain") {[ "a" := VStr "x"; "b" := VStr "y" ]}) world0 None
           ({[ "a" := VStr "x"; "b" := VStr "y" ]} : props) world0);
    [reflexivity | | reflexivity].
  intros m g [<-|[<-|[]]] [= <-]; apply get_pure, test_realm_pure_getters.
Defined.

(** ** Effects of a read and a write *)

Lemma forEach_pure {A S} (body : A -> S -> M S) l :
  (forall x, In x l -> forall s w, exists r, body x s w = (r, w)) ->
  forall s w, exists r, forEach body l s w = (r, w).
Proof.
  induction l as [|x l IH]; intros Hb s w; simpl.
  - unfold ret. eauto.
  - unfold bind. destruct (Hb x (or_introl eq_refl) s w) as [[s1|e] Hx]; rewrite Hx; [|eauto].
    apply IH. intros y Hy. apply Hb. now right.
Qed.

Lemma assign_pure `{Realm} k v o w :
  pure_setters -> exists r, assign k v o w = (r, w).
Proof.
  intros Hs. unfold assign. destruct (o.2 !! k); [unfold ret; eauto|].
  unfold chain. destruct o.1 as [c|]; [|unfold ret; eauto].
  destruct (slot_of c k) as [| |g [s|]] eqn:E; unfold ret, throw; eauto.
  destruct (Hs c k g s E) as [r Hr]. rewrite Hr. eauto.
Qed.

Lemma test_realm_pure_setters : @pure_setters test_realm.
Proof.
  intros c k g s. simpl. unfold test_slot. intros E.
  exists (fun o v => (s o v world0).1). intros o v w.
  repeat match type of E with
         | (if ?b then _ else _) = _ => destruct b
         end; try discriminate; now injection E as <- <-.
Qed.

(** X21.  With pure mappers and a pure class (its constructor and the setters
    on its prototype chain), [Format.read] has one effect only: the log line
    it prints when it fails.  Either it returns a value other than
    [undefined] and leaves the world as it was, or it returns [undefined]
    and the world differs by exactly that line.  [Format.write] likewise,
    with pure write functions. *)
Theorem pure_format_logs_only_on_failure `{Realm} (f : Format) :
  Configured f ->
  ((forall m, In m (_mappers f) -> pure_fn (read m)) ->
   (forall c, _cl f = Some c -> exists r, forall w, class_new c w = (r, w)) ->
   pure_setters ->
   forall source w,
     (exists v, Format_read f source w = (Return v, w) /\ v <> VUndefined) \/
     (exists e, Format_read f source w
                = (Return VUndefined,
                   print (ConsoleLog "A format read completely exploded." e) w))) /\
  ((forall m g, In m (_mappers f) -> write m = Some g -> pure_fn g) ->
   forall model w,
     (exists v, Format_write f model w = (Return v, w) /\ v <> VUndefined) \/
     (exists e, Format_write f model w
                = (Return VUndefined,
                   print (ConsoleLog "A format write completely exploded." e) w))).
Proof.
  intros Hf. destruct (Configured_inv f Hf) as [_ Hrd]. split.
  - intros Hp Hc Hs source w. unfold Format_read, try_catch.
    destruct (truthy source); simpl; [|left; exists VNull; now split].
    assert (exists r, new_instance (_cl f) w = (r, w)) as [[inst|e] Hnew].
    { unfold new_instance. destruct (_cl f) as [c|]; [|unfold throw; eauto].
      destruct (Hc c eq_refl) as [[ps|e] Hr]; unfold bind; rewrite Hr; unfold ret; eauto. }
    + rewrite (bind_Return _ _ _ _ _ Hnew). unfold bind. rewrite Hrd.
      destruct (forEach_pure (fun m o => mapper_reader m (dropUndefined f) source o) (_mappers f))
        with (s := inst) (w := w) as [[out|e] Hrun].
      { intros m Hin s w1. destruct (Hp m Hin) as [r Hr]. unfold mapper_reader, bind.
        rewrite Hr. destruct (r source) as [v|e]; [|eauto].
        destruct (dropUndefined f && is_undefined v); [unfold ret; eauto|].
        now apply assign_pure. }
      * unfold run_readers. rewrite Hrun. left. eexists. now split.
      * unfold run_readers. rewrite Hrun. right. now exists e.
    + rewrite (bind_Throw _ _ _ _ _ Hnew). right. now exists e.
  - intros Hp model w. unfold Format_write, try_catch.
    destruct (truthy model); simpl; [|left; exists VNull; now split].
    destruct (forEach_pure (mapper_writer (dropUndefined f) model)
                (List.filter has_write (_mappers f))) with (s := (∅ : props)) (w := w)
      as [[out|e] Hrun].
    { intros m Hin s w1. apply filter_In in Hin as [Hin Hhas].
      unfold has_write in Hhas. destruct (write m) as [g|] eqn:Hw; [|discriminate].
      destruct (Hp m g Hin Hw) as [r Hr]. unfold mapper_writer, bind, call.
      rewrite Hw, Hr. destruct (r model) as [v|e]; [|eauto].
      destruct (dropUndefined f && is_undefined v); unfold ret; [eauto|].
      rewrite Hr. destruct (r model); eauto. }
    + unfold bind. rewrite Hrun. left. eexists. now split.
    + unfold bind. rewrite Hrun. right. now exists e.
Qed.

Lemma pure_format_logs_only_on_failure_witness :
  (exists v, Format_read exploding_format ab_object world0 = (Return v, world0) /\
             v <> VUndefined) \/
  (exists e, Format_read exploding_format ab_object world0
             = (Return VUndefined,
                print (ConsoleLog "A format read completely exploded." e) world0)).
Proof.
  destruct (pure_format_logs_only_on_failure exploding_format (Format_of_Configured _ _ _ _))
    as [Hr _].
  apply Hr.
  - intros m [<-|[<-|[]]]; [apply get_pure, test_realm_pure_getters|].
    exists (fun _ => Throw (VStr "boom")). reflexivity.
  - intros c [= <-]. exists (Return ∅). reflexivity.
  - apply test_realm_pure_setters.
Defined.

(** ** Chains of steps *)

(** X22.  On a mapper other than a [NumberMapper], two [transform]s in a row run
    their read steps in the order of the chain after the mapper's read, and
    their write steps in the same order after the mapper's write: the write
    direction does not undo the steps last to first. *)
Theorem transform_steps_run_in_chain_order (m : Mapper) (r1 w1 r2 w2 : jsfun) :
  mclass m <> NumberMapper_ ->
  (forall source w,
      read (transform (transform m r1 w1) r2 w2) source w
      = (v <- read m source ;; v1 <- r1 v ;; r2 v1) w) /\
  (forall model w,
      call (write (transform (transform m r1 w1) r2 w2)) model w
      = (v <- call (write m) model ;; v1 <- w1 v ;; w2 v1) w).
Proof.
  intros Hc. unfold transform at 2 4. destruct (mclass m); try done; split; intros x w;
    unfold transform; simpl; now rewrite bind_assoc.
Qed.

Lemma transform_steps_run_in_chain_order_witness :
  call (write (transform (transform (json "a")
                            (lift (fun v => v)) (lift (fun _ => VStr "first")))
                 (lift (fun v => v)) (lift (fun v => VArr [v]))))
       ab_object world0
  = (Return (VArr [VStr "first"]), world0).
Proof.
  destruct (transform_steps_run_in_chain_order (json "a")
              (lift (fun v => v)) (lift (fun _ => VStr "first"))
              (lift (fun v => v)) (lift (fun v => VArr [v]))) as [_ Hw]; [discriminate|].
  rewrite Hw. reflexivity.
Defined.

(** X23.  [idResolver] on write, for a mapper other than a [NumberMapper] that is
    the last of a format with its source name and has a pure write function:
    when that function returns a falsy value for the model (for [json`x`],
    when the model has no [x]), the written object holds [null] under the
    name, it is not left out; when it returns an object, the written object
    holds that object's id field (if it has one that is not [undefined]). *)
Theorem idResolver_writes_id_or_null `{Lodash} `{Realm} (f : Format) (pre : list Mapper) (m : Mapper)
    (post : list Mapper) (array : list value) (idField : option string) (g : jsfun)
    (model v : value) :
  _mappers f = pre ++ Mapper_idResolver m array idField :: post ->
  Forall (fun m' => name m' <> name m) post ->
  mclass m <> NumberMapper_ ->
  write m = Some g ->
  (forall w, g model w = (Return v, w)) ->
  forall w cls out w',
    write_of f model w = (Return (VObj cls out), w') ->
    (truthy v = false -> out !! name m = Some VNull) /\
    (forall c ps i,
        v = VObj c ps -> ps !! default "id" idField = Some i -> i <> VUndefined ->
        out !! name m = Some i).
Proof.
  intros Hms Hpost Hc Hw Hg w cls out w' E. apply write_of_object in E.
  assert (name (Mapper_idResolver m array idField) = name m) as Hname
    by (unfold Mapper_idResolver, transform; now destruct (mclass m)).
  assert (exists G, write (Mapper_idResolver m array idField) = Some G /\
            forall w1, G model w1
              = (if truthy v then get (default "id" idField) v else ret VNull) w1)
    as (G & HG & HGm).
  { unfold Mapper_idResolver, transform. destruct (mclass m); try done; simpl;
      eexists; (split; [reflexivity|]); intros w1; unfold call; rewrite Hw;
      now rewrite (bind_Return _ _ _ _ _ (Hg w1)). }
  rewrite <- Hname in Hpost. apply Forall_filter_has_write in Hpost.
  destruct (write_last_assignment f _ _ _ G _ _ _ _ _ Hms HG Hpost E)
    as (out1 & w1 & v1 & w2 & _ & Hv1 & Hout).
  rewrite Hname in Hout. rewrite HGm in Hv1. split.
  - intros Tv. rewrite Tv in Hv1. unfold ret in Hv1. injection Hv1 as <- <-.
    rewrite andb_false_r in Hout. destruct Hout as (v' & w3 & Hv' & Hout).
    rewrite HGm, Tv in Hv'. unfold ret in Hv'. now injection Hv' as <- <-.
  - intros c ps i -> Hi Hu. simpl in Hv1. rewrite Hi in Hv1. unfold ret in Hv1.
    injection Hv1 as <- <-.
    rewrite (is_undefined_false i Hu), andb_false_r in Hout.
    destruct Hout as (v' & w3 & Hv' & Hout).
    rewrite HGm in Hv'. simpl in Hv'. rewrite Hi in Hv'. unfold ret in Hv'.
    now injection Hv' as <- <-.
Qed.

Lemma idResolver_writes_id_or_null_witness :
  ({[ "idInCollection" := VNull ]} : props) !! "idInCollection" = Some VNull /\
  ({[ "idInCollection" := VStr "2" ]} : props) !! "idInCollection" = Some (VStr "2").
Proof.
  split.
  - destruct (@idResolver_writes_id_or_null finds_nothing test_realm idInCollection_format []
                (json "idInCollection") [] [] None (get "idInCollection")
                (VObj (Some "Plain") ∅) VUndefined eq_refl (List.Forall_nil _)
                ltac:(discriminate) eq_refl (fun w => eq_refl)
                world0 None ({[ "idInCollection" := VNull ]} : props) world0) as [Hnull _];
      [vm_compute; reflexivity|].
    apply Hnull. reflexivity.
  - destruct (@idResolver_writes_id_or_null finds_nothing test_realm idInCollection_format []
                (json "idInCollection") [] [] None (get "idInCollection")
                resolved_model
                (VObj None {[ "id" := VStr "2"; "title" := VStr "Second object" ]})
                eq_refl (List.Forall_nil _) ltac:(discriminate) eq_refl
                ltac:(intros w; vm_compute; reflexivity)
                world0 None ({[ "idInCollection" := VStr "2" ]} : props) world0) as [_ Hid];
      [vm_compute; reflexivity|].
    apply (Hid None ({[ "id" := VStr "2"; "title" := VStr "Second object" ]} : props)
             (VStr "2")); [reflexivity | vm_compute; reflexivity | discriminate].
Defined.

(** ** Further compositions *)

(** X24.  Extending twice is extending once with both lists: the format
    [f.extend(C1, ...ms1).extend(C2, ...ms2)] is the format
    [f.extend(C2, ...ms2, ...ms1)]; the class given first is forgotten and
    the mappers given last come first. *)
Theorem extend_twice `{Realm} (f : Format) (C1 C2 : Class) (ms1 ms2 : list Mapper) (f1 f2 : Format) :
  Format_extend f (Some C1) ms1 = Return f1 ->
  Format_extend f1 (Some C2) ms2 = Return f2 ->
  Format_extend f (Some C2) (ms2 ++ ms1) = Return f2 /\
  _mappers f2 = ms2 ++ ms1 ++ _mappers f /\ _cl f2 = Some C2.
Proof.
  unfold Format_extend. intros H1 H2.
  pose proof H1 as I1. apply constructor_inv in I1 as (_ & _ & _ & M1 & _).
  rewrite M1 in H2. rewrite <- List.app_assoc. split; [exact H2|].
  now apply constructor_inv in H2 as (_ & _ & ? & ? & _).
Qed.

Lemma extend_twice_witness :
  exists f2,
    Format_extend plain_format (Some SubSub) ([json "c"] ++ [json "b"]) = Return f2 /\
    _mappers f2 = [json "c"] ++ [json "b"] ++ _mappers plain_format /\ _cl f2 = Some SubSub.
Proof.
  exists (Format_of Format_ (Some SubSub) (json "c") [json "b"; json "a"]).
  apply (extend_twice plain_format Sub SubSub [json "b"] [json "c"]
           (Format_of Format_ (Some Sub) (json "b") [json "a"])); reflexivity.
Defined.

(** X25.  [node`x`.is(f)] contains the failures of [f]: on a source object its
    read function never throws when [f] is a format other than one made by
    [writeonly(false)], so a nested object that cannot be read costs the
    outer format that one field, not the whole read.  Should the source
    inherit a getter for [x], that getter has to return. *)
Theorem node_is_contains_failures `{Realm} (x : string) (nested : Format) (cls : option string)
    (fields : props) (w : world) :
  fclass nested <> WriteOnlyFormat false ->
  (forall getter setter,
      fields !! x = None -> chain cls x = Accessor (Some getter) setter ->
      exists v w1, getter (cls, fields) w = (Return v, w1)) ->
  exists r w',
    read (JsonNode_is (node x) (as_abstract nested)) (VObj cls fields) w = (Return r, w').
Proof.
  intros Hk Hg. unfold JsonNode_is.
  assert (exists v w1, read (node x) (VObj cls fields) w = (Return v, w1)) as (v & w1 & Hv).
  { simpl. destruct (fields !! x) as [v|] eqn:Hx; [unfold ret; eauto|].
    destruct (chain cls x) as [|v|[g|] s] eqn:Hc; unfold ret; eauto. }
  rewrite (transform_read (node x) _ _ (VObj cls fields) w v w1 Hv).
  simpl. now apply read_of_returns.
Qed.

Lemma node_is_contains_failures_witness :
  exists r w',
    read (JsonNode_is (node "a") (as_abstract throwing_format))
         (VObj (Some "Object") {[ "a" := VObj (Some "Object") ∅ ]}) world0 = (Return r, w').
Proof.
  apply (node_is_contains_failures "a" throwing_format (Some "Object")
           ({[ "a" := VObj (Some "Object") ∅ ]} : props) world0).
  - discriminate.
  - intros getter setter Hx. discriminate Hx.
Defined.

Lemma Qle_bool_false p q : Qle_bool p q = false -> (q < p)%Q.
Proof.
  intros E. apply Qnot_le_lt. intros L. apply Qle_bool_iff in L. congruence.
Qed.

Lemma Math_max_case a b :
  is_NaN a = false -> is_NaN b = false -> Math_max a b = if num_leb a b then b else a.
Proof. intros Ha Hb. unfold Math_max. now rewrite Ha, Hb. Qed.

Lemma Math_min_case a b :
  is_NaN a = false -> is_NaN b = false -> Math_min a b = if num_leb a b then a else b.
Proof. intros Ha Hb. unfold Math_min. now rewrite Ha, Hb. Qed.

Lemma num_leb_trans a b c :
  num_leb a b = true -> num_leb b c = true -> num_leb a c = true.
Proof.
  destruct a as [|[|]| |p], b as [|[|]| |q], c as [|[|]| |r]; simpl; try done;
    intros H1 H2.
  - apply Qle_bool_iff in H1, H2. apply Qle_bool_iff. lra.
  - apply negb_true_iff, Qle_bool_false in H1. apply Qle_bool_iff in H2.
    apply Qle_bool_iff. lra.
  - apply negb_true_iff, Qle_bool_false in H2. apply Qle_bool_iff in H1.
    apply negb_true_iff. destruct (Qle_bool 0 p) eqn:E; [|reflexivity].
    apply Qle_bool_iff in E. lra.
  - apply Qle_bool_iff in H1, H2. apply Qle_bool_iff. lra.
Qed.

(** X26.  The order of [min] and [max] in a chain matters for falsy input only.
    For truthy bounds [a] strictly below [b]: on a truthy number
    [min(a).max(b)] and [max(b).min(a)] read the same; on a falsy value (0,
    [NaN], a missing field) [min(a).max(b)] reads [a] while [max(b).min(a)]
    reads [b]. *)
Theorem min_max_order_matters_for_falsy_only `{Host} (nm : Mapper) (a b : number)
    (source : value) (w w' : world) (v : value) :
  mclass nm = NumberMapper_ ->
  read nm source w = (Return v, w') ->
  truthy (VNum a) = true ->
  truthy (VNum b) = true ->
  num_leb a b = true ->
  num_leb b a = false ->
  (forall n, v = VNum n -> truthy v = true ->
     read (NumberMapper_max (NumberMapper_min nm a) b) source w
     = read (NumberMapper_min (NumberMapper_max nm b) a) source w) /\
  (truthy v = false ->
     read (NumberMapper_max (NumberMapper_min nm a) b) source w = (Return (VNum a), w') /\
     read (NumberMapper_min (NumberMapper_max nm b) a) source w = (Return (VNum b), w')).
Proof.
  intros _ Hv Ta Tb Hab Hba.
  pose proof (truthy_number_not_NaN a Ta) as Na. pose proof (truthy_number_not_NaN b Tb) as Nb.
  assert (forall x y z u, read nm source w = (Return u, w') ->
            read (NumberMapper_max (NumberMapper_min nm x) y) source w
            = (Return (let m := if truthy u then VNum (Math_max (ToNumber u) x) else VNum x in
                       if truthy m then VNum (Math_min (ToNumber m) y) else VNum y), w') /\
            read (NumberMapper_min (NumberMapper_max nm y) z) source w
            = (Return (let m := if truthy u then VNum (Math_min (ToNumber u) y) else VNum y in
                       if truthy m then VNum (Math_max (ToNumber m) z) else VNum z), w')) as Hchain.
  { intros x y z u Hu. split.
    - assert (read (NumberMapper_min nm x) source w
              = (Return (if truthy u then VNum (Math_max (ToNumber u) x) else VNum x), w')) as E
        by (unfold NumberMapper_min; now rewrite (transform_read _ _ _ _ _ _ _ Hu)).
      unfold NumberMapper_max at 1. now rewrite (transform_read _ _ _ _ _ _ _ E).
    - assert (read (NumberMapper_max nm y) source w
              = (Return (if truthy u then VNum (Math_min (ToNumber u) y) else VNum y), w')) as E
        by (unfold NumberMapper_max; now rewrite (transform_read _ _ _ _ _ _ _ Hu)).
      unfold NumberMapper_min at 1. now rewrite (transform_read _ _ _ _ _ _ _ E). }
  destruct (Hchain a b a v Hv) as [E1 E2]. rewrite E1, E2. clear E1 E2 Hchain.
  cbv zeta. split.
  - intros n -> Tn. pose proof (truthy_number_not_NaN n Tn) as Nn.
    rewrite Tn. cbv beta iota delta [ToNumber].
    rewrite (Math_max_case n a), (Math_min_case n b) by done.
    destruct (num_leb n a) eqn:Lna.
    + rewrite (num_leb_trans n a b Lna Hab), Ta, Tn.
      now rewrite (Math_min_case a b), (Math_max_case n a), Hab, Lna.
    + rewrite Tn. destruct (num_leb n b) eqn:Lnb.
      * rewrite Tn. now rewrite (Math_min_case n b), (Math_max_case n a), Lnb, Lna.
      * rewrite Tb. now rewrite (Math_min_case n b), (Math_max_case b a), Lnb, Hba.
  - intros Tv. rewrite Tv, Ta, Tb. cbv beta iota delta [ToNumber].
    now rewrite (Math_min_case a b), (Math_max_case b a), Hab, Hba.
Qed.

Lemma min_max_order_matters_for_falsy_only_witness :
  read (@NumberMapper_max no_parsing (@NumberMapper_min no_parsing (@number_ no_parsing test_realm "b")
                                        (Fin 5)) (Fin 10)) b0 world0
  = (Return (VNum (Fin 5)), world0) /\
  read (@NumberMapper_min no_parsing (@NumberMapper_max no_parsing (@number_ no_parsing test_realm "b")
                                        (Fin 10)) (Fin 5)) b0 world0
  = (Return (VNum (Fin 10)), world0).
Proof.
  apply (@min_max_order_matters_for_falsy_only no_parsing (@number_ no_parsing test_realm "b")
           (Fin 5) (Fin 10) b0 world0 world0 (VNum (Fin 0))); reflexivity.
Defined.
